(** * vLLM gateway and load balancer: a shallow embedding and its properties

    The development follows the two source files of the repository:

    - [gateway.py]: the credential and quota engine ([validate_api_key],
      [check_rate_limit], [log_usage], [get_client_key],
      [validate_and_check_rate_limit]) and the three proxy handlers
      ([get_models], [chat_completions], [completions]);
    - [load_balancer.py]: the [LoadBalancer] class ([update_health_status],
      [get_healthy_gateways], [select_gateway]) and the forwarding routes
      ([proxy_request], [proxy_all]).

    Python code that reads and writes shared state and may raise is written
    in a small state-and-exception monad; the SQLite tables are lists of
    rows, Python dictionaries are finite maps. *)

From stdpp Require Import base option list strings gmap fin_maps pretty.
From Stdlib Require Import ZArith Lia Ascii String.

Local Open Scope Z_scope.
Local Open Scope string_scope.

(** ** Python values, exceptions and the handler monad *)

Module Py.

(** The exceptions that the two programs raise or catch.  All of them are
    subclasses of Python's [Exception], so an [except Exception] clause
    catches every constructor, [HTTPException] included. *)
Inductive exn : Type :=
| HTTPException (status_code : Z) (detail : string)
| NameError (name : string)
| KeyError (key : string)
| RuntimeFailure (cls : string) (msg : string).

(** [str(e)] as used in the f-strings of the handlers. *)
Definition exn_str (e : exn) : string :=
  match e with
  | HTTPException status_code detail => pretty status_code ++ ": " ++ detail
  | NameError name => "name '" ++ name ++ "' is not defined"
  | KeyError key => "'" ++ key ++ "'"
  | RuntimeFailure _ msg => msg
  end.

Inductive result (A : Type) : Type :=
| Ok (a : A)
| Raise (e : exn).
Arguments Ok {A} a.
Arguments Raise {A} e.

(** A computation over a mutable store [S] that either returns or raises.
    Writes made before an exception is raised stay in the store. *)
Definition M (S A : Type) : Type := S -> S * result A.

Definition ret {S A : Type} (a : A) : M S A := fun s => (s, Ok a).

Definition raise {S A : Type} (e : exn) : M S A := fun s => (s, Raise e).

Definition bind {S A B : Type} (m : M S A) (k : A -> M S B) : M S B :=
  fun s =>
    match m s with
    | (s', Ok a) => k a s'
    | (s', Raise e) => (s', Raise e)
    end.

(** [try: body / except Exception as e: handler e]. *)
Definition try_except {S A : Type} (body : M S A) (handler : exn -> M S A) : M S A :=
  fun s =>
    match body s with
    | (s', Ok a) => (s', Ok a)
    | (s', Raise e) => handler e s'
    end.

Definition lift {S A : Type} (r : result A) : M S A := fun s => (s, r).

Definition get {S : Type} : M S S := fun s => (s, Ok s).

Definition put {S : Type} (s : S) : M S unit := fun _ => (s, Ok tt).

(** ** Strings *)

(** [str.isspace] on the code points a header value can hold (Latin-1). *)
Definition isspace (c : ascii) : bool :=
  let n := N_of_ascii c in
  ((9 <=? n) && (n <=? 13) || (28 <=? n) && (n <=? 32) || (n =? 133) || (n =? 160))%N.

Fixpoint lstrip (s : string) : string :=
  match s with
  | EmptyString => EmptyString
  | String c s' => if isspace c then lstrip s' else s
  end.

Fixpoint rstrip (s : string) : string :=
  match s with
  | EmptyString => EmptyString
  | String c s' =>
      match rstrip s' with
      | EmptyString => if isspace c then EmptyString else String c EmptyString
      | r => String c r
      end
  end.

(** [s.strip()]. *)
Definition strip (s : string) : string := rstrip (lstrip s).

(** [s.startswith(p)]. *)
Definition startswith (s p : string) : bool := String.prefix p s.

(** [s.replace(old, new)] for a non-empty [old]: every occurrence, scanning
    from the left, occurrences not overlapping.  [skip] counts the
    characters of an occurrence that is being skipped. *)
Fixpoint replace_from (old new : string) (skip : nat) (s : string) : string :=
  match s with
  | EmptyString => EmptyString
  | String c s' =>
      match skip with
      | S k => replace_from old new k s'
      | O =>
          if String.prefix old s
          then new ++ replace_from old new (Nat.pred (String.length old)) s'
          else String c (replace_from old new O s')
      end
  end.

Definition replace (s old new : string) : string := replace_from old new O s.

(** ** Requests *)

(** An inbound request.  Header names are lower-cased by the server, and
    [headers.get] returns the first value stored under a name. *)
Record Request : Type := {
  method : string;
  url_path : string;
  headers : list (string * string);
  query_params : string;
  body : string
}.

Definition headers_get (h : list (string * string)) (name : string) : option string :=
  snd <$> List.find (fun p => String.eqb (fst p) name) h.

(** Truthiness of an optional string: neither [None] nor empty. *)
Definition truthy (o : option string) : bool :=
  match o with
  | Some (String _ _) => true
  | _ => false
  end.

End Py.

Export Py.

Declare Scope py_scope.
Delimit Scope py_scope with py.
Notation "x <~ m ; k" := (bind m (fun x => k))
  (at level 20, m at level 100, k at level 200, only parsing) : py_scope.
Notation "'run' m ; k" := (bind m (fun _ => k))
  (at level 20, m at level 100, k at level 200, only parsing) : py_scope.

(** ** gateway.py *)

Module Gateway.

Local Open Scope py_scope.

(** A [datetime]: its calendar date (as a day number, the value of
    [.date()]) and the time within that day. *)
Record datetime : Type := {
  date : Z;
  time_of_day : Z
}.

(** A row of table [api_keys].  [last_used] is NULL until a usage is
    logged for the row. *)
Record ApiKeyRow : Type := {
  key_id : string;
  key_name : string;
  email : string;
  api_key : string;
  rate_limit : Z;
  daily_usage : Z;
  last_used : option datetime;
  created_at : datetime;
  is_active : bool
}.

(** A row of table [usage_logs]; the autoincremented id is the position. *)
Record UsageLog : Type := {
  api_key_id : string;
  endpoint : string;
  tokens_used : Z;
  timestamp : datetime
}.

Record Database : Type := {
  api_keys : list ApiKeyRow;
  usage_logs : list UsageLog
}.

(** The dictionary that [validate_api_key] returns. *)
Record UserInfo : Type := {
  ui_id : string;
  ui_name : string;
  ui_email : string;
  ui_rate_limit : Z;
  ui_daily_usage : Z
}.

(** [SELECT ... FROM api_keys WHERE api_key = ?] followed by [fetchone]. *)
Definition select_by_api_key (key : string) (rows : list ApiKeyRow) : option ApiKeyRow :=
  List.find (fun r => String.eqb (api_key r) key) rows.

(** [SELECT ... WHERE api_key = ? AND is_active = 1] followed by [fetchone]. *)
Definition select_active_by_api_key (key : string) (rows : list ApiKeyRow) : option ApiKeyRow :=
  List.find (fun r => String.eqb (api_key r) key && is_active r) rows.

(** The dictionary built from a fetched row. *)
Definition user_info_of_row (result : ApiKeyRow) : UserInfo :=
  {| ui_id := key_id result;
     ui_name := key_name result;
     ui_email := email result;
     ui_rate_limit := rate_limit result;
     ui_daily_usage := daily_usage result |}.

Definition validate_api_key (d : Database) (key : string) : option UserInfo :=
  match select_active_by_api_key key (api_keys d) with
  | Some result => Some (user_info_of_row result)
  | None => None
  end.

Definition set_daily_usage (v : Z) (r : ApiKeyRow) : ApiKeyRow :=
  {| key_id := key_id r; key_name := key_name r; email := email r;
     api_key := api_key r; rate_limit := rate_limit r;
     daily_usage := v;
     last_used := last_used r; created_at := created_at r;
     is_active := is_active r |}.

(** [UPDATE api_keys SET daily_usage = 0 WHERE api_key = ?]. *)
Definition reset_daily_usage (key : string) (rows : list ApiKeyRow) : list ApiKeyRow :=
  List.map (fun r => if String.eqb (api_key r) key then set_daily_usage 0 r else r) rows.

(** [check_rate_limit]: returns the store after the call and the verdict.
    [now] is the reading of [datetime.now()]. *)
Definition check_rate_limit (now : datetime) (key : string) (d : Database) : Database * bool :=
  match select_by_api_key key (api_keys d) with
  | None => (d, false)
  | Some result =>
      let rate_limit_ := rate_limit result in
      let daily_usage_ := daily_usage result in
      match select_by_api_key key (api_keys d) with
      | Some {| last_used := Some last_used_date |} =>
          if (date last_used_date <? date now)%Z
          then ({| api_keys := reset_daily_usage key (api_keys d);
                   usage_logs := usage_logs d |},
                (0 <? rate_limit_)%Z)
          else (d, (daily_usage_ <? rate_limit_)%Z)
      | _ => (d, (daily_usage_ <? rate_limit_)%Z)
      end
  end.

(** [UPDATE api_keys SET daily_usage = daily_usage + ?, last_used =
    CURRENT_TIMESTAMP WHERE api_key = ?]. *)
Definition add_usage (stamp : datetime) (key : string) (tokens : Z)
    (rows : list ApiKeyRow) : list ApiKeyRow :=
  List.map
    (fun r =>
       if String.eqb (api_key r) key
       then {| key_id := key_id r; key_name := key_name r; email := email r;
               api_key := api_key r; rate_limit := rate_limit r;
               daily_usage := daily_usage r + tokens;
               last_used := Some stamp; created_at := created_at r;
               is_active := is_active r |}
       else r)
    rows.

(** The two statements of [log_usage], committed together.  [stamp] is
    SQLite's CURRENT_TIMESTAMP. *)
Definition log_usage_commit (stamp : datetime) (key endpoint_ : string) (tokens : Z)
    (d : Database) : Database :=
  {| api_keys := add_usage stamp key tokens (api_keys d);
     usage_logs := usage_logs d ++
       [ {| api_key_id := key; endpoint := endpoint_;
            tokens_used := tokens; timestamp := stamp |} ] |}.

(** [get_client_key]. *)
Definition get_client_key (request : Request) : option string :=
  let client_key := headers_get (headers request) "x-api-key" in
  if truthy client_key then client_key
  else
    match headers_get (headers request) "authorization" with
    | Some auth_header =>
        if truthy (Some auth_header) && startswith auth_header "Bearer "
        then Some (strip (replace auth_header "Bearer " EmptyString))
        else client_key
    | None => client_key
    end.

(** The names bound at module level in gateway.py: its imports (lines
    1-16), its assignments, its function definitions, and [uvicorn],
    imported when the file is run as a script. *)
Definition gateway_globals : list string :=
  [ "os"; "sqlite3"; "hashlib"; "secrets"; "time"; "uuid";
    "datetime"; "timedelta";
    "Optional"; "List"; "Dict"; "Any";
    "FastAPI"; "Request"; "HTTPException"; "Depends"; "Header";
    "HTMLResponse"; "JSONResponse"; "StreamingResponse";
    "Jinja2Templates"; "StaticFiles"; "CORSMiddleware";
    "httpx"; "load_dotenv";
    "app"; "VLLM_URL"; "VLLM_API_KEY"; "DATABASE_PATH"; "GATEWAY_PORT";
    "templates";
    "init_database"; "get_db_connection"; "hash_api_key"; "generate_api_key";
    "validate_api_key"; "check_rate_limit"; "log_usage"; "get_client_key";
    "validate_and_check_rate_limit";
    "home_page"; "dashboard"; "api_keys_page"; "chat_page"; "docs_redirect";
    "list_api_keys"; "create_api_key"; "delete_api_key";
    "get_models"; "chat_completions"; "completions";
    "health_check"; "monitor_page"; "startup_event";
    "uvicorn" ].

(** The token estimate of the inference handlers,
    [len(str(request_data)) // 4 + len(str(response_data)) // 4], on the
    two rendered texts. *)
Definition estimate_tokens (request_text response_text : string) : Z :=
  Z.of_nat (String.length request_text) / 4
  + Z.of_nat (String.length response_text) / 4.

(** A call made through [httpx.AsyncClient]. *)
Record UpstreamCall : Type := {
  call_method : string;
  call_url : string;
  call_headers : list (string * string);
  call_content : string;
  call_timeout : Z
}.

(** What the upstream server answered. *)
Record Response : Type := {
  status_code : Z;
  content : string
}.

(** What a handler can change: the database, and the record of the calls
    it made to the upstream server. *)
Record World : Type := {
  db : Database;
  upstream_calls : list UpstreamCall
}.

Section Handlers.

(** The type of decoded JSON documents. *)
Context {PyVal : Type}.

Record JSONResponse : Type := {
  json_status_code : Z;
  json_content : PyVal
}.

(** What surrounds one run of a handler: configuration, the two clocks,
    the behaviour of the upstream server, the JSON decoder and [str], and
    the exception (if any) that the store raises while [log_usage] runs. *)
Record Env : Type := {
  VLLM_URL : string;
  VLLM_API_KEY : string;
  now : datetime;
  CURRENT_TIMESTAMP : datetime;
  send : UpstreamCall -> result Response;
  json_decode : string -> result PyVal;
  py_str : PyVal -> string;
  log_usage_fault : option exn
}.

Variable env : Env.

Definition with_db {A : Type} (f : Database -> Database * A) : M World A :=
  fun w =>
    let '(d, a) := f (db w) in
    ({| db := d; upstream_calls := upstream_calls w |}, Ok a).

(** [log_usage]: nothing is committed when the store raises. *)
Definition log_usage (key endpoint_ : string) (tokens : Z) : M World unit :=
  match log_usage_fault env with
  | Some e => raise e
  | None =>
      with_db (fun d => (log_usage_commit (CURRENT_TIMESTAMP env) key endpoint_ tokens d, tt))
  end.

(** [validate_and_check_rate_limit]. *)
Definition validate_and_check_rate_limit (request : Request) : M World UserInfo :=
  let client_key := get_client_key request in
  match client_key with
  | Some (String c k as key) =>
      d <~ with_db (fun d => (d, d)) ;
      match validate_api_key d key with
      | None => raise (HTTPException 401 "Invalid API key")
      | Some user_info =>
          within_limit <~ with_db (check_rate_limit (now env) key) ;
          if within_limit then ret user_info
          else raise (HTTPException 429 "Rate limit exceeded. Try again tomorrow.")
      end
  | _ =>
      raise (HTTPException 401
               "Missing API key. Use x-api-key header or Authorization: Bearer")
  end.

(** [await client.get(...)] / [await client.post(...)]: the call is made
    (and recorded), then the upstream behaviour decides the outcome. *)
Definition client_send (call : UpstreamCall) : M World Response :=
  fun w =>
    ({| db := db w; upstream_calls := upstream_calls w ++ [call] |}, send env call).

(** Evaluation, inside a function of gateway.py, of a name that is
    neither local nor a Python built-in (as is the case of [json]): the
    module's globals are searched, and [NameError] is raised when the name
    is not bound there. *)
Definition load_global (name : string) : M World unit :=
  if bool_decide (name ∈ gateway_globals) then ret tt else raise (NameError name).

Definition error_500 (e : exn) : M World JSONResponse :=
  raise (HTTPException 500 ("Error connecting to vLLM: " ++ exn_str e)).

(** The upstream call of [get_models]. *)
Definition models_call : UpstreamCall :=
  {| call_method := "GET";
     call_url := VLLM_URL env ++ "/models";
     call_headers := [("Authorization", "Bearer " ++ VLLM_API_KEY env)];
     call_content := EmptyString;
     call_timeout := 30 |}.

(** [get_models]. *)
Definition get_models (request : Request) : M World JSONResponse :=
  user_info <~ validate_and_check_rate_limit request ;
  try_except
    (response <~ client_send models_call ;
     run log_usage (ui_id user_info) "/v1/models" 0 ;
     response_data <~ lift (json_decode env (content response)) ;
     ret {| json_status_code := status_code response; json_content := response_data |})
    error_500.

(** The common body of [chat_completions] and [completions], which differ
    in the upstream path and in the endpoint name that is logged. *)
Definition completions_body (upstream_path endpoint_ : string)
    (request : Request) : M World JSONResponse :=
  user_info <~ validate_and_check_rate_limit request ;
  let body_ := body request in
  try_except
    (run load_global "json" ;
     request_data <~ lift (json_decode env body_) ;
     response <~ client_send
       {| call_method := "POST";
          call_url := VLLM_URL env ++ upstream_path;
          call_headers := [("Authorization", "Bearer " ++ VLLM_API_KEY env);
                           ("Content-Type", "application/json")];
          call_content := body_;
          call_timeout := 60 |} ;
     response_data <~ lift (json_decode env (content response)) ;
     let tokens_used_ :=
       estimate_tokens (py_str env request_data) (py_str env response_data) in
     run log_usage (ui_id user_info) endpoint_ tokens_used_ ;
     ret {| json_status_code := status_code response; json_content := response_data |})
    error_500.

Definition chat_completions : Request -> M World JSONResponse :=
  completions_body "/chat/completions" "/v1/chat/completions".

Definition completions : Request -> M World JSONResponse :=
  completions_body "/completions" "/v1/completions".

End Handlers.

Arguments JSONResponse : clear implicits.
Arguments Env : clear implicits.

(** *** Schema constraints and the spec's vocabulary *)

(** [api_key TEXT UNIQUE NOT NULL]. *)
Definition unique_api_keys (rows : list ApiKeyRow) : Prop :=
  NoDup (List.map api_key rows).

(** The data-model invariant [daily_usage >= 0]. *)
Definition nonneg_usage (rows : list ApiKeyRow) : Prop :=
  Forall (fun r => 0 <= daily_usage r) rows.

(** The usage of a credential once the day-boundary reset that applies
    at time [now] (if any) has been carried out. *)
Definition usage_after_reset (now_ : datetime) (c : ApiKeyRow) : Z :=
  match last_used c with
  | Some last_used_date => if (date last_used_date <? date now_)%Z then 0 else daily_usage c
  | None => daily_usage c
  end.


(** The specification's rule for usage recording: whenever the upstream
    call of an accepted models request succeeded, a failure of
    [log_usage] leaves the caller with a response. *)
Definition usage_failure_swallowed : Prop :=
  forall (env : Env string) (request : Request) (w w1 : World)
         (user_info : UserInfo) (response : Response) (e : exn),
    validate_and_check_rate_limit env request w = (w1, Ok user_info) ->
    send env (models_call env) = Ok response ->
    log_usage_fault env = Some e ->
    exists answer, snd (get_models env request w) = Ok answer.

(** *** Sample data *)

Definition day (n : Z) : datetime := {| date := n; time_of_day := 0 |}.

Definition sample_row (usage : Z) (active : bool) : ApiKeyRow :=
  {| key_id := "7c0e6f0a"; key_name := "alice"; email := "alice@example.org";
     api_key := "vllm_abc"; rate_limit := 2; daily_usage := usage;
     last_used := Some (day 10); created_at := day 1; is_active := active |}.

Definition sample_world (usage : Z) (active : bool) : World :=
  {| db := {| api_keys := [sample_row usage active]; usage_logs := [] |};
     upstream_calls := [] |}.

Definition sample_request : Request :=
  {| method := "POST"; url_path := "/v1/chat/completions";
     headers := [("host", "gateway"); ("authorization", "Bearer vllm_abc")];
     query_params := EmptyString; body := "1234567" |}.

Definition models_request : Request :=
  {| method := "GET"; url_path := "/v1/models";
     headers := [("host", "gateway"); ("x-api-key", "vllm_abc")];
     query_params := EmptyString; body := EmptyString |}.

(** A write refused by SQLite. *)
Definition database_locked : exn :=
  RuntimeFailure "sqlite3.OperationalError" "database is locked".

(** Decoded documents are kept as their text: for a JSON number such as
    [1234567], [str] of the decoded value is the text itself. *)
Definition sample_env (today : Z) (fault : option exn) : Env string :=
  {| VLLM_URL := "http://localhost:8000/v1";
     VLLM_API_KEY := "supersecretkey";
     now := day today;
     CURRENT_TIMESTAMP := day today;
     send := fun _ => Ok {| status_code := 200; content := "7654321" |};
     json_decode := fun s => Ok s;
     py_str := fun s => s;
     log_usage_fault := fault |}.

End Gateway.

(** ** load_balancer.py *)

Module Balancer.

Local Open Scope py_scope.

(** The fields of class [LoadBalancer]; the three dictionaries are keyed
    by gateway URL, the time stamps are readings of [time.time()]. *)
Record LoadBalancer : Type := {
  gateways : list string;
  health_status : gmap string bool;
  request_counts : gmap string Z;
  last_health_check : gmap string Z;
  health_check_interval : Z
}.

(** [{gateway: v for gateway in gateways}]. *)
Definition dict_from_keys {V : Type} (keys : list string) (v : V) : gmap string V :=
  foldl (fun d gateway => <[gateway := v]> d) ∅ keys.

(** [LoadBalancer.__init__]. *)
Definition LoadBalancer_init : LoadBalancer :=
  let gateways_ :=
    [ "http://localhost:8001"; "http://localhost:8002"; "http://localhost:8003" ] in
  {| gateways := gateways_;
     health_status := dict_from_keys gateways_ true;
     request_counts := dict_from_keys gateways_ 0;
     last_health_check := dict_from_keys gateways_ 0;
     health_check_interval := 30 |}.

(** [d[k]]: raises [KeyError] when [k] is not a key of [d]. *)
Definition dict_get {V : Type} (d : gmap string V) (k : string) : result V :=
  match d !! k with
  | Some v => Ok v
  | None => Raise (KeyError k)
  end.

(** [get_healthy_gateways], on the list and the dictionary it reads:
    [[gateway for gateway in gateways if health_status[gateway]]]. *)
Fixpoint healthy_of (status : gmap string bool) (l : list string) : result (list string) :=
  match l with
  | [] => Ok []
  | gateway :: l' =>
      match dict_get status gateway with
      | Raise e => Raise e
      | Ok h =>
          match healthy_of status l' with
          | Raise e => Raise e
          | Ok rest => Ok (if h : bool then gateway :: rest else rest)
          end
      end
  end.

Definition get_healthy_gateways (self : LoadBalancer) : result (list string) :=
  healthy_of (health_status self) (gateways self).

(** The loop of the built-in [min(iterable, key=...)]: the candidate is
    replaced only by an item whose key is strictly smaller, so the first
    of several minimal items is kept. *)
Fixpoint min_scan (counts : gmap string Z) (best : string) (best_key : Z)
    (l : list string) : result string :=
  match l with
  | [] => Ok best
  | g :: l' =>
      match dict_get counts g with
      | Raise e => Raise e
      | Ok k =>
          if (k <? best_key)%Z then min_scan counts g k l'
          else min_scan counts best best_key l'
      end
  end.

(** [min(healthy_gateways, key=lambda g: self.request_counts[g])]. *)
Definition min_by_request_count (counts : gmap string Z) (l : list string) : result string :=
  match l with
  | [] => Raise (RuntimeFailure "ValueError" "min() arg is an empty sequence")
  | g :: l' =>
      match dict_get counts g with
      | Raise e => Raise e
      | Ok k => min_scan counts g k l'
      end
  end.

Definition set_request_counts (counts : gmap string Z) (self : LoadBalancer) : LoadBalancer :=
  {| gateways := gateways self;
     health_status := health_status self;
     request_counts := counts;
     last_health_check := last_health_check self;
     health_check_interval := health_check_interval self |}.

(** The three lines shared by the branches of [select_gateway] other than
    ["random"]: take the minimum, [self.request_counts[selected] += 1],
    return it. *)
Definition select_min_and_count (healthy_gateways : list string) : M LoadBalancer string :=
  self <~ get ;
  selected <~ lift (min_by_request_count (request_counts self) healthy_gateways) ;
  count <~ lift (dict_get (request_counts self) selected) ;
  run put (set_request_counts (<[selected := count + 1]> (request_counts self)) self) ;
  ret selected.

(** [random.choice(seq)] for the number [r] drawn by the generator. *)
Definition random_choice (r : nat) (seq : list string) : result string :=
  match seq !! Nat.modulo r (List.length seq) with
  | Some g => Ok g
  | None => Raise (RuntimeFailure "IndexError" "Cannot choose from an empty sequence")
  end.

(** [select_gateway(self, strategy="round_robin")]; [None] stands for a
    call that leaves the argument out, [r] for the random draw. *)
Definition select_gateway (r : nat) (strategy : option string) : M LoadBalancer string :=
  let strategy_ := default "round_robin" strategy in
  self <~ get ;
  healthy_gateways <~ lift (get_healthy_gateways self) ;
  match healthy_gateways with
  | [] => raise (HTTPException 503 "No healthy gateways available")
  | _ :: _ =>
      if String.eqb strategy_ "round_robin" then
        select_min_and_count healthy_gateways
      else if String.eqb strategy_ "random" then
        lift (random_choice r healthy_gateways)
      else if String.eqb strategy_ "least_connections" then
        select_min_and_count healthy_gateways
      else
        select_min_and_count healthy_gateways
  end.

(** A call made through [httpx.AsyncClient(timeout=60.0)]. *)
Record UpstreamCall : Type := {
  call_method : string;
  call_url : string;
  call_headers : list (string * string);
  call_content : string;
  call_params : string
}.

Record Response : Type := {
  status_code : Z;
  response_headers : list (string * string);
  content : string
}.

Record StreamingResponse : Type := {
  sr_content : string;
  sr_status_code : Z;
  sr_headers : list (string * string)
}.

(** The balancer object, the forwarded calls and the health probes made
    so far. *)
Record World : Type := {
  lb : LoadBalancer;
  upstream_calls : list UpstreamCall;
  probe_calls : list string
}.

(** What surrounds one request: the clock, the answer of each health
    probe (status code, or the exception raised), the behaviour of the
    gateways, and the random draw. *)
Record Env : Type := {
  time_now : Z;
  probe : string -> result Z;
  send : UpstreamCall -> result Response;
  random_draw : nat
}.

Section Routes.

Variable env : Env.

Definition with_lb {A : Type} (m : M LoadBalancer A) : M World A :=
  fun w =>
    let '(self, r) := m (lb w) in
    ({| lb := self; upstream_calls := upstream_calls w; probe_calls := probe_calls w |}, r).

(** [health_check]: true exactly when the probe answers 200. *)
Definition health_check (gateway : string) : M World bool :=
  fun w =>
    let url := gateway ++ "/health" in
    ({| lb := lb w; upstream_calls := upstream_calls w;
        probe_calls := probe_calls w ++ [url] |},
     Ok match probe env url with
        | Ok status => (status =? 200)%Z
        | Raise _ => false
        end).

Definition set_health (gateway : string) (h : bool) (t : Z) (self : LoadBalancer) : LoadBalancer :=
  {| gateways := gateways self;
     health_status := <[gateway := h]> (health_status self);
     request_counts := request_counts self;
     last_health_check := <[gateway := t]> (last_health_check self);
     health_check_interval := health_check_interval self |}.

(** The body of the loop of [update_health_status]. *)
Definition update_gateway (current_time : Z) (gateway : string) : M World unit :=
  self <~ with_lb get ;
  last <~ lift (dict_get (last_health_check self) gateway) ;
  if (current_time - last >? health_check_interval self)%Z then
    h <~ health_check gateway ;
    with_lb (self' <~ get ; put (set_health gateway h current_time self'))
  else ret tt.

Fixpoint for_each {S A : Type} (l : list A) (f : A -> M S unit) : M S unit :=
  match l with
  | [] => ret tt
  | x :: l' => run f x ; for_each l' f
  end.

(** [update_health_status]. *)
Definition update_health_status : M World unit :=
  let current_time := time_now env in
  self <~ with_lb get ;
  for_each (gateways self) (update_gateway current_time).

(** [dict(request.headers)]: one entry per name, holding the first value. *)
Fixpoint dict_of_headers (seen : list string) (h : list (string * string)) : list (string * string) :=
  match h with
  | [] => []
  | (k, v) :: h' =>
      if existsb (String.eqb k) seen then dict_of_headers seen h'
      else (k, v) :: dict_of_headers (k :: seen) h'
  end.

(** [headers.pop(name, None)]. *)
Definition dict_pop (name : string) (d : list (string * string)) : list (string * string) :=
  List.filter (fun p => negb (String.eqb (fst p) name)) d.

Definition client_request (call : UpstreamCall) : M World Response :=
  fun w =>
    ({| lb := lb w; upstream_calls := upstream_calls w ++ [call];
        probe_calls := probe_calls w |},
     send env call).

(** The call that [proxy_request] makes: the inbound method, body and
    query, the gateway's URL followed by the path, and the inbound headers
    without [host]. *)
Definition forwarded_call (request : Request) (gateway path : string) : UpstreamCall :=
  let full_url := gateway ++ path in
  let body_ := body request in
  let headers_ := dict_pop "host" (dict_of_headers [] (headers request)) in
  {| call_method := method request;
     call_url := full_url;
     call_headers := headers_;
     call_content := body_;
     call_params := query_params request |}.

(** [proxy_request]. *)
Definition proxy_request (request : Request) (gateway path : string) : M World StreamingResponse :=
  try_except
    (response <~ client_request (forwarded_call request gateway path) ;
     ret {| sr_content := content response;
            sr_status_code := status_code response;
            sr_headers := response_headers response |})
    (fun e => raise (HTTPException 502 ("Gateway error: " ++ exn_str e))).

(** [proxy_all]. *)
Definition proxy_all (request : Request) (path : string) : M World StreamingResponse :=
  run update_health_status ;
  try_except
    (selected_gateway <~ with_lb (select_gateway (random_draw env) (Some "round_robin")) ;
     proxy_request request selected_gateway ("/" ++ path))
    (fun e => raise (HTTPException 503 "Service temporarily unavailable")).

End Routes.

(** Every registered gateway is a key of the three dictionaries, as
    [__init__] leaves them. *)
Definition lb_wf (self : LoadBalancer) : Prop :=
  Forall (fun g => is_Some (health_status self !! g)
                   /\ is_Some (request_counts self !! g)
                   /\ is_Some (last_health_check self !! g))
         (gateways self).

(** *** The spec's vocabulary *)

(** Every item of [l] has a count above [c]. *)
Definition counts_above (counts : gmap string Z) (c : Z) (l : list string) : Prop :=
  forall g, g ∈ l -> exists cg, counts !! g = Some cg /\ c < cg.

(** Every item of [l] has a count that is at least [c]. *)
Definition counts_at_least (counts : gmap string Z) (c : Z) (l : list string) : Prop :=
  forall g, g ∈ l -> exists cg, counts !! g = Some cg /\ c <= cg.

(** [sel] is the first item of [l] whose count is least: the items before
    it have a strictly greater count, the items after it a count at least
    as great. *)
Definition first_least (counts : gmap string Z) (l : list string) (sel : string) : Prop :=
  exists (pre post : list string) (c : Z),
    l = (pre ++ sel :: post)%list
    /\ counts !! sel = Some c
    /\ counts_above counts c pre
    /\ counts_at_least counts c post.

(** What the health refresh leaves alone: the forwarded calls, the request
    counts and the list of gateways; and no dictionary loses a key. *)
Definition refresh_frame (w w' : World) : Prop :=
  upstream_calls w' = upstream_calls w
  /\ request_counts (lb w') = request_counts (lb w)
  /\ gateways (lb w') = gateways (lb w)
  /\ (forall g, is_Some (last_health_check (lb w) !! g) ->
                is_Some (last_health_check (lb w') !! g))
  /\ (forall g, is_Some (health_status (lb w) !! g) ->
                is_Some (health_status (lb w') !! g)).

(** Every registered gateway is marked unhealthy. *)
Definition all_unhealthy (self : LoadBalancer) : Prop :=
  forall g, g ∈ gateways self -> health_status self !! g = Some false.

(** *** Sample data *)

(** The balancer after some traffic: counts 5, 3, 3 in registration
    order. *)
Definition sample_lb : LoadBalancer :=
  set_request_counts
    (<["http://localhost:8001" := 5]>
       (<["http://localhost:8002" := 3]>
          (<["http://localhost:8003" := 3]> ∅)))
    LoadBalancer_init.

Definition sample_world : World :=
  {| lb := sample_lb; upstream_calls := []; probe_calls := [] |}.

Definition sample_request : Request :=
  {| method := "GET"; url_path := "/v1/models";
     headers := [("host", "balancer"); ("x-api-key", "vllm_abc")];
     query_params := EmptyString; body := EmptyString |}.

Definition connect_error : exn :=
  RuntimeFailure "httpx.ConnectError" "All connection attempts failed".

(** The first request after start-up: a probe is due for every gateway
    and answers 200, but every forwarded call fails to connect. *)
Definition env_upstream_refuses : Env :=
  {| time_now := 1700000100;
     probe := fun _ => Ok 200;
     send := fun _ => Raise connect_error;
     random_draw := O |}.

(** A probe is due for every gateway, and every probe fails. *)
Definition env_all_down : Env :=
  {| time_now := 1700000100;
     probe := fun _ => Raise connect_error;
     send := fun _ => Raise connect_error;
     random_draw := O |}.

End Balancer.

(** ** gateway.py: the administrative routes *)

Module GatewayAdmin.

Import Gateway.
Local Open Scope py_scope.

(** The decoded body of a creation request, for bodies whose fields, when
    present, have the types of their columns; [None] is an absent field. *)
Record KeyData : Type := {
  data_name : option string;
  data_email : option string;
  data_rate_limit : option Z
}.

(** What one creation draws from outside: the value of
    [secrets.token_urlsafe(32)], the value of [str(uuid.uuid4())] and
    SQLite's CURRENT_TIMESTAMP. *)
Record AdminEnv : Type := {
  token_urlsafe : string;
  uuid4 : string;
  created_stamp : datetime
}.

(** [generate_api_key]. *)
Definition generate_api_key (env : AdminEnv) : string :=
  "vllm_" ++ token_urlsafe env.

(** The dictionary that [create_api_key] returns. *)
Record KeyCreated : Type := {
  created_id : string;
  created_name : string;
  created_email : string;
  created_api_key : string;
  created_rate_limit : Z;
  created_message : string
}.

(** A violated PRIMARY KEY or UNIQUE constraint; the column that SQLite
    names in its message is left out. *)
Definition integrity_error : exn :=
  RuntimeFailure "sqlite3.IntegrityError" "UNIQUE constraint failed".

(** [INSERT INTO api_keys (id, name, email, api_key, rate_limit) VALUES
    (?, ?, ?, ?, ?)]: the other columns take their defaults, and the row
    is refused when its id or its api_key is already in the table. *)
Definition insert_api_key (stamp : datetime) (key_id_ name_ email_ api_key_ : string)
    (rate_limit_ : Z) (rows : list ApiKeyRow) : result (list ApiKeyRow) :=
  if existsb (fun r => String.eqb (key_id r) key_id_) rows
     || existsb (fun r => String.eqb (api_key r) api_key_) rows
  then Raise integrity_error
  else Ok (rows ++
             [ {| key_id := key_id_; key_name := name_; email := email_;
                  api_key := api_key_; rate_limit := rate_limit_;
                  daily_usage := 0; last_used := None;
                  created_at := stamp; is_active := true |} ])%list.

(** [create_api_key]. *)
Definition create_api_key (env : AdminEnv) (data : KeyData) : M Database KeyCreated :=
  let name_ := default "Unnamed Key" (data_name data) in
  let email_ := default EmptyString (data_email data) in
  let rate_limit_ := default 100 (data_rate_limit data) in
  let api_key_ := generate_api_key env in
  let key_id_ := uuid4 env in
  d <~ get ;
  rows <~ lift (insert_api_key (created_stamp env) key_id_ name_ email_ api_key_
                  rate_limit_ (api_keys d)) ;
  run put {| api_keys := rows; usage_logs := usage_logs d |} ;
  ret {| created_id := key_id_;
         created_name := name_;
         created_email := email_;
         created_api_key := api_key_;
         created_rate_limit := rate_limit_;
         created_message := "API key created successfully" |}.

(** [delete_api_key]: [DELETE FROM api_keys WHERE id = ?], then 404 when
    [cursor.rowcount] is 0. *)
Definition delete_api_key (key_id_ : string) : M Database string :=
  d <~ get ;
  let remaining :=
    List.filter (fun r => negb (String.eqb (key_id r) key_id_)) (api_keys d) in
  let rowcount := (List.length (api_keys d) - List.length remaining)%nat in
  if Nat.eqb rowcount O then raise (HTTPException 404 "API key not found")
  else
    run put {| api_keys := remaining; usage_logs := usage_logs d |} ;
    ret "API key deleted successfully".

(** *** Vocabulary *)

(** [old] occurs somewhere in [s]. *)
Fixpoint occurs (old s : string) : bool :=
  String.prefix old s
  || match s with
     | EmptyString => false
     | String _ s' => occurs old s'
     end.

(** [s] starts with white space; [s] ends with white space. *)
Definition starts_with_space (s : string) : bool :=
  match s with
  | EmptyString => false
  | String c _ => isspace c
  end.

Fixpoint ends_with_space (s : string) : bool :=
  match s with
  | EmptyString => false
  | String c EmptyString => isspace c
  | String _ s' => ends_with_space s'
  end.

(** No secret of the table is also the id of a row: ids are UUIDs, secrets
    start with [vllm_]. *)
Definition ids_differ_from_keys (rows : list ApiKeyRow) : Prop :=
  forall r r', r ∈ rows -> r' ∈ rows -> api_key r <> key_id r'.

(** Two rows differ at most in [daily_usage]. *)
Definition same_but_usage (r r' : ApiKeyRow) : Prop :=
  key_id r' = key_id r /\ key_name r' = key_name r /\ email r' = email r
  /\ api_key r' = api_key r /\ rate_limit r' = rate_limit r
  /\ last_used r' = last_used r /\ created_at r' = created_at r
  /\ is_active r' = is_active r.

(** [rows'] come from [rows] by resetting some counters to 0 and by
    nothing else. *)
Definition only_reset (rows rows' : list ApiKeyRow) : Prop :=
  Forall2 (fun r r' => same_but_usage r r'
                       /\ (daily_usage r' = daily_usage r \/ daily_usage r' = 0))
          rows rows'.

(** *** Sample data *)

Definition sample_admin_env : AdminEnv :=
  {| token_urlsafe := "Zm9vYmFy"; uuid4 := "1b4e28ba"; created_stamp := day 12 |}.

Definition sample_key_data : KeyData :=
  {| data_name := Some "bob"; data_email := None; data_rate_limit := Some 5 |}.

Definition sample_db : Database :=
  {| api_keys := [sample_row 1 true]; usage_logs := [] |}.

(** A key that was created and never used. *)
Definition fresh_world : World :=
  {| db := {| api_keys :=
                [ {| key_id := "7c0e6f0a"; key_name := "alice"; email := "alice@example.org";
                     api_key := "vllm_abc"; rate_limit := 2; daily_usage := 0;
                     last_used := None; created_at := day 1; is_active := true |} ];
              usage_logs := [] |};
     upstream_calls := [] |}.

Definition bearer_request (authorization : string) : Request :=
  {| method := "GET"; url_path := "/v1/models";
     headers := [("host", "gateway"); ("authorization", authorization)];
     query_params := EmptyString; body := EmptyString |}.

(** The upstream server answers 200 with a body that is not JSON. *)
Definition env_not_json : Env string :=
  {| VLLM_URL := "http://localhost:8000/v1";
     VLLM_API_KEY := "supersecretkey";
     now := day 10;
     CURRENT_TIMESTAMP := day 10;
     send := fun _ => Ok {| status_code := 200; content := "<html>" |};
     json_decode := fun s =>
       Raise (RuntimeFailure "json.JSONDecodeError" "Expecting value: line 1 column 1 (char 0)");
     py_str := fun s => s;
     log_usage_fault := None |}.

(** The upstream server cannot be reached. *)
Definition env_unreachable : Env string :=
  {| VLLM_URL := "http://localhost:8000/v1";
     VLLM_API_KEY := "supersecretkey";
     now := day 10;
     CURRENT_TIMESTAMP := day 10;
     send := fun _ => Raise (RuntimeFailure "httpx.ConnectError" "All connection attempts failed");
     json_decode := fun s => Ok s;
     py_str := fun s => s;
     log_usage_fault := None |}.

End GatewayAdmin.

(** ** load_balancer.py: the operational routes *)

Module BalancerStatus.

Import Balancer.
Local Open Scope py_scope.

(** An entry of the list ["gateways"] of the health report. *)
Record GatewayHealth : Type := {
  gh_url : string;
  gh_healthy : bool;
  gh_request_count : Z
}.

(** The dictionary returned by the route [/health]. *)
Record HealthReport : Type := {
  hr_status : string;
  hr_healthy_gateways : nat;
  hr_total_gateways : nat;
  hr_gateways : list GatewayHealth
}.

(** An entry of the list ["gateway_stats"]. *)
Record GatewayStats : Type := {
  gs_url : string;
  gs_healthy : bool;
  gs_request_count : Z;
  gs_last_health_check : Z
}.

(** The dictionary returned by the route [/stats]. *)
Record StatsReport : Type := {
  total_requests : Z;
  gateway_stats : list GatewayStats
}.

(** [[f(x) for x in l]] for an [f] that may raise. *)
Fixpoint map_result {A B : Type} (f : A -> result B) (l : list A) : result (list B) :=
  match l with
  | [] => Ok []
  | x :: l' =>
      match f x with
      | Raise e => Raise e
      | Ok y =>
          match map_result f l' with
          | Raise e => Raise e
          | Ok rest => Ok (y :: rest)
          end
      end
  end.

(** [sum(d.values())]. *)
Definition sum_values (d : gmap string Z) : Z :=
  map_fold (fun _ v acc => acc + v) 0 d.

Definition gateway_health (self : LoadBalancer) (gateway : string) : result GatewayHealth :=
  match dict_get (health_status self) gateway with
  | Raise e => Raise e
  | Ok h =>
      match dict_get (request_counts self) gateway with
      | Raise e => Raise e
      | Ok c => Ok {| gh_url := gateway; gh_healthy := h; gh_request_count := c |}
      end
  end.

Definition gateway_stat (self : LoadBalancer) (gateway : string) : result GatewayStats :=
  match dict_get (health_status self) gateway with
  | Raise e => Raise e
  | Ok h =>
      match dict_get (request_counts self) gateway with
      | Raise e => Raise e
      | Ok c =>
          match dict_get (last_health_check self) gateway with
          | Raise e => Raise e
          | Ok t =>
              Ok {| gs_url := gateway; gs_healthy := h; gs_request_count := c;
                    gs_last_health_check := t |}
          end
      end
  end.

Section Routes.

Variable env : Env.

(** The route [/health] of the balancer. *)
Definition health_check_route : M World HealthReport :=
  run update_health_status env ;
  self <~ with_lb get ;
  healthy <~ lift (get_healthy_gateways self) ;
  let healthy_count := List.length healthy in
  let total_count := List.length (gateways self) in
  entries <~ lift (map_result (gateway_health self) (gateways self)) ;
  ret {| hr_status := if (0 <? healthy_count)%nat then "healthy" else "unhealthy";
         hr_healthy_gateways := healthy_count;
         hr_total_gateways := total_count;
         hr_gateways := entries |}.

(** The route [/stats]. *)
Definition get_stats : M World StatsReport :=
  run update_health_status env ;
  self <~ with_lb get ;
  entries <~ lift (map_result (gateway_stat self) (gateways self)) ;
  ret {| total_requests := sum_values (request_counts self);
         gateway_stats := entries |}.

End Routes.

(** *** Vocabulary *)

(** The probe of [gateway] is due at time [t]. *)
Definition probe_due (self : LoadBalancer) (t : Z) (gateway : string) : bool :=
  match last_health_check self !! gateway with
  | Some last => (t - last >? health_check_interval self)%Z
  | None => false
  end.

(** The verdict of [health_check] for [gateway]. *)
Definition probe_verdict (env : Env) (gateway : string) : bool :=
  match probe env (gateway ++ "/health") with
  | Ok status => (status =? 200)%Z
  | Raise _ => false
  end.

(** The mark and the time stamp of gateway [g] after a refresh at time
    [t] that visits the gateways of [l]: those of a due gateway of [l] are
    renewed, the others are kept. *)
Definition refreshed_health (env : Env) (self : LoadBalancer) (t : Z)
    (l : list string) (g : string) : option bool :=
  if bool_decide (g ∈ l) && probe_due self t g
  then Some (probe_verdict env g)
  else health_status self !! g.

Definition refreshed_stamp (self : LoadBalancer) (t : Z)
    (l : list string) (g : string) : option Z :=
  if bool_decide (g ∈ l) && probe_due self t g
  then Some t
  else last_health_check self !! g.

(** The request counts of the gateways of [l] differ by at most one. *)
Definition balanced (counts : gmap string Z) (l : list string) : Prop :=
  forall g h cg ch,
    g ∈ l -> h ∈ l -> counts !! g = Some cg -> counts !! h = Some ch -> cg <= ch + 1.

(** *** Sample data *)

(** The gateway answers 204 with one header and no body. *)
Definition env_upstream_answers : Env :=
  {| time_now := 1700000100;
     probe := fun _ => Ok 200;
     send := fun _ =>
       Ok {| status_code := 204;
             response_headers := [("x-served-by", "gateway")];
             content := EmptyString |};
     random_draw := 4%nat |}.

(** Five seconds after every gateway was probed. *)
Definition sample_world_checked : World :=
  {| lb := set_health "http://localhost:8001" false 1700000095
             (set_health "http://localhost:8002" true 1700000095
                (set_health "http://localhost:8003" true 1700000095 sample_lb));
     upstream_calls := []; probe_calls := [] |}.

End BalancerStatus.

(** ** Properties of the quota engine and of the proxy handlers *)

Module GatewayFacts.

Import Gateway.
Local Open Scope Z_scope.

(** *** Row selection *)

Lemma select_by_api_key_key key rows c :
  select_by_api_key key rows = Some c -> api_key c = key.
Proof.
  unfold select_by_api_key. intros H.
  apply List.find_some in H as [_ H]. by apply String.eqb_eq.
Qed.

Lemma select_active_of_select key rows c :
  select_by_api_key key rows = Some c ->
  is_active c = true ->
  select_active_by_api_key key rows = Some c.
Proof.
  unfold select_by_api_key, select_active_by_api_key.
  induction rows as [|r rows IH]; simpl; [done|].
  destruct (String.eqb (api_key r) key) eqn:Ek; simpl.
  - intros [= ->] ->. done.
  - auto.
Qed.

Lemma select_active_none key rows :
  (forall r, r ∈ rows -> api_key r = key -> is_active r = false) ->
  select_active_by_api_key key rows = None.
Proof.
  unfold select_active_by_api_key.
  induction rows as [|r rows IH]; simpl; intros H; [done|].
  destruct (String.eqb (api_key r) key) eqn:Ek; simpl.
  - apply String.eqb_eq in Ek.
    rewrite (H r (list_elem_of_here _ _) Ek). simpl.
    apply IH. intros r' Hr'. apply H. by apply list_elem_of_further.
  - apply IH. intros r' Hr'. apply H. by apply list_elem_of_further.
Qed.

Lemma unique_key_rows_agree rows r1 r2 :
  unique_api_keys rows ->
  r1 ∈ rows -> r2 ∈ rows -> api_key r1 = api_key r2 -> r1 = r2.
Proof.
  unfold unique_api_keys.
  induction rows as [|r rows IH]; simpl; intros Hnd H1 H2 Heq.
  - by apply not_elem_of_nil in H1.
  - apply NoDup_cons in Hnd as [Hnotin Hnd].
    apply elem_of_cons in H1 as [->|H1]; apply elem_of_cons in H2 as [->|H2];
      try done.
    + exfalso. apply Hnotin. rewrite Heq.
      apply list_elem_of_In, List.in_map, list_elem_of_In, H2.
    + exfalso. apply Hnotin. rewrite <- Heq.
      apply list_elem_of_In, List.in_map, list_elem_of_In, H1.
    + by apply IH.
Qed.

Lemma select_after_reset key rows c :
  select_by_api_key key rows = Some c ->
  select_by_api_key key (reset_daily_usage key rows) = Some (set_daily_usage 0 c).
Proof.
  unfold select_by_api_key, reset_daily_usage.
  induction rows as [|r rows IH]; simpl; [done|].
  destruct (String.eqb (api_key r) key) eqn:Ek; simpl.
  - rewrite Ek. by intros [= ->].
  - rewrite Ek. done.
Qed.

(** *** The quota check *)

Lemma check_rate_limit_verdict now_ key d c :
  select_by_api_key key (api_keys d) = Some c ->
  snd (check_rate_limit now_ key d) = (usage_after_reset now_ c <? rate_limit c).
Proof.
  intros Hc. unfold check_rate_limit, usage_after_reset. rewrite Hc.
  destruct c as [i n e k rl du [lu|] ca act]; simpl; [|done].
  by destruct (date lu <? date now_).
Qed.

Lemma check_rate_limit_logs now_ key d :
  usage_logs (fst (check_rate_limit now_ key d)) = usage_logs d.
Proof.
  unfold check_rate_limit.
  destruct (select_by_api_key key (api_keys d)) as [c|]; [|done].
  destruct c as [i n e k rl du [lu|] ca act]; simpl; [|done].
  by destruct (date lu <? date now_).
Qed.

Lemma usage_after_reset_below now_ c :
  0 <= daily_usage c -> daily_usage c < rate_limit c ->
  usage_after_reset now_ c < rate_limit c.
Proof.
  unfold usage_after_reset. intros H0 Hlt.
  destruct (last_used c) as [lu|]; [|done].
  destruct (date lu <? date now_); lia.
Qed.

Section Gate.

Context {PyVal : Type} (env : Env PyVal).

(** How the gate runs for a request that presents a non-empty secret. *)
Lemma gate_unfold request w c0 key0 :
  get_client_key request = Some (String c0 key0) ->
  validate_and_check_rate_limit env request w =
    match validate_api_key (db w) (String c0 key0) with
    | None => (w, Raise (HTTPException 401 "Invalid API key"))
    | Some user_info =>
        let '(d, within_limit) := check_rate_limit (now env) (String c0 key0) (db w) in
        ({| db := d; upstream_calls := upstream_calls w |},
         if within_limit then Ok user_info
         else Raise (HTTPException 429 "Rate limit exceeded. Try again tomorrow."))
    end.
Proof.
  intros Hk. unfold validate_and_check_rate_limit. rewrite Hk.
  destruct w as [d calls]. unfold bind, with_db. cbn [db upstream_calls].
  destruct (validate_api_key d (String c0 key0)) as [ui|]; [|done].
  cbn [db upstream_calls].
  destruct (check_rate_limit (now env) (String c0 key0) d) as [d' []]; done.
Qed.

Lemma gate_active request w key c :
  get_client_key request = Some key -> key <> EmptyString ->
  select_by_api_key key (api_keys (db w)) = Some c ->
  is_active c = true ->
  validate_and_check_rate_limit env request w =
    ({| db := fst (check_rate_limit (now env) key (db w));
        upstream_calls := upstream_calls w |},
     if usage_after_reset (now env) c <? rate_limit c
     then Ok (user_info_of_row c)
     else Raise (HTTPException 429 "Rate limit exceeded. Try again tomorrow.")).
Proof.
  intros Hk Hne Hc Hact. destruct key as [|c0 key0]; [done|].
  rewrite (gate_unfold _ _ _ _ Hk).
  unfold validate_api_key. rewrite (select_active_of_select _ _ _ Hc Hact).
  pose proof (check_rate_limit_verdict (now env) _ _ _ Hc) as Hv.
  destruct (check_rate_limit (now env) (String c0 key0) (db w)) as [d' v].
  simpl in *. by rewrite Hv.
Qed.

(** The gate never forwards anything and never writes a usage record. *)
Lemma gate_frame request w :
  upstream_calls (fst (validate_and_check_rate_limit env request w)) = upstream_calls w
  /\ usage_logs (db (fst (validate_and_check_rate_limit env request w))) = usage_logs (db w).
Proof.
  unfold validate_and_check_rate_limit.
  destruct (get_client_key request) as [[|c0 key0]|]; try done.
  destruct w as [d calls]. unfold bind, with_db. cbn [db upstream_calls].
  destruct (validate_api_key d (String c0 key0)) as [ui|]; [|done].
  cbn [db upstream_calls].
  pose proof (check_rate_limit_logs (now env) (String c0 key0) d) as Hl.
  destruct (check_rate_limit (now env) (String c0 key0) d) as [d' []]; done.
Qed.

End Gate.

(** *** The quota gate *)

(** C1.  An active credential whose stored [daily_usage] (a non-negative
    counter) is below its [rate_limit] is let through by [check_rate_limit]
    and by the gate [validate_and_check_rate_limit]; a credential whose
    [daily_usage], after the day-boundary reset that applies, has reached
    its [rate_limit] is rejected by [check_rate_limit], and the gate
    answers such a request of an active credential with HTTP 429. *)
Theorem quota_gate_passes_below_limit_rejects_at_limit :
  forall (PyVal : Type) (env : Env PyVal) (request : Request) (w : World)
         (key : string) (c : ApiKeyRow),
    get_client_key request = Some key -> key <> EmptyString ->
    select_by_api_key key (api_keys (db w)) = Some c ->
    (is_active c = true -> 0 <= daily_usage c -> daily_usage c < rate_limit c ->
       snd (check_rate_limit (now env) key (db w)) = true
       /\ snd (validate_and_check_rate_limit env request w) = Ok (user_info_of_row c))
    /\ (rate_limit c <= usage_after_reset (now env) c ->
          snd (check_rate_limit (now env) key (db w)) = false
          /\ (is_active c = true ->
                snd (validate_and_check_rate_limit env request w)
                = Raise (HTTPException 429 "Rate limit exceeded. Try again tomorrow."))).
Proof.
  intros PyVal env request w key c Hk Hne Hc. split.
  - intros Hact H0 Hlt.
    pose proof (usage_after_reset_below (now env) c H0 Hlt) as Hu.
    apply Z.ltb_lt in Hu. split.
    + by rewrite (check_rate_limit_verdict _ _ _ _ Hc).
    + rewrite (gate_active env _ _ _ _ Hk Hne Hc Hact). simpl. by rewrite Hu.
  - intros Hge. apply Z.ltb_ge in Hge. split.
    + by rewrite (check_rate_limit_verdict _ _ _ _ Hc).
    + intros Hact.
      rewrite (gate_active env _ _ _ _ Hk Hne Hc Hact). simpl. by rewrite Hge.
Qed.

Lemma quota_gate_witness :
  snd (validate_and_check_rate_limit (sample_env 10 None) sample_request (sample_world 1 true))
    = Ok (user_info_of_row (sample_row 1 true))
  /\ snd (validate_and_check_rate_limit (sample_env 10 None) sample_request (sample_world 2 true))
    = Raise (HTTPException 429 "Rate limit exceeded. Try again tomorrow.").
Proof.
  split.
  - apply (proj1 (quota_gate_passes_below_limit_rejects_at_limit
                    string (sample_env 10 None) sample_request (sample_world 1 true)
                    "vllm_abc" (sample_row 1 true) eq_refl ltac:(discriminate) eq_refl));
      [reflexivity | simpl; lia | simpl; lia].
  - apply (proj2 (quota_gate_passes_below_limit_rejects_at_limit
                    string (sample_env 10 None) sample_request (sample_world 2 true)
                    "vllm_abc" (sample_row 2 true) eq_refl ltac:(discriminate) eq_refl));
      [vm_compute; discriminate | reflexivity].
Defined.

(** C2.  A credential last used on day [D] with [daily_usage = k > 0]
    that sends a request on day [D + 1]: the stored [daily_usage] is set
    to 0, the check compares 0 with [rate_limit], and an active credential
    with a positive [rate_limit] is let through whatever [k] is. *)
Theorem day_boundary_reset_lets_through :
  forall (PyVal : Type) (env : Env PyVal) (request : Request) (w : World)
         (key : string) (c : ApiKeyRow) (t : datetime) (D k : Z),
    get_client_key request = Some key -> key <> EmptyString ->
    select_by_api_key key (api_keys (db w)) = Some c ->
    is_active c = true ->
    last_used c = Some t -> date t = D -> date (now env) = D + 1 ->
    daily_usage c = k -> 0 < k ->
    0 < rate_limit c ->
    check_rate_limit (now env) key (db w)
      = ({| api_keys := reset_daily_usage key (api_keys (db w));
            usage_logs := usage_logs (db w) |}, true)
    /\ validate_and_check_rate_limit env request w
      = ({| db := {| api_keys := reset_daily_usage key (api_keys (db w));
                     usage_logs := usage_logs (db w) |};
            upstream_calls := upstream_calls w |},
         Ok (user_info_of_row c))
    /\ select_by_api_key key (reset_daily_usage key (api_keys (db w)))
       = Some (set_daily_usage 0 c)
    /\ daily_usage (set_daily_usage 0 c) = 0.
Proof.
  intros PyVal env request w key c t D k Hk Hne Hc Hact Hlu HD Hnow Hdu Hpos Hrl.
  assert (Hday : (date t <? date (now env)) = true) by (apply Z.ltb_lt; lia).
  assert (Hlim : (0 <? rate_limit c) = true) by (by apply Z.ltb_lt).
  assert (Hcheck : check_rate_limit (now env) key (db w)
      = ({| api_keys := reset_daily_usage key (api_keys (db w));
            usage_logs := usage_logs (db w) |}, true)).
  { unfold check_rate_limit. rewrite Hc.
    destruct c as [i n e a rl du lu ca act]; simpl in *. subst lu.
    by rewrite Hday, Hlim. }
  split; [done|]. split; [|split; [by apply select_after_reset | done]].
  rewrite (gate_active env _ _ _ _ Hk Hne Hc Hact), Hcheck. simpl.
  unfold usage_after_reset. by rewrite Hlu, Hday, Hlim.
Qed.

Lemma day_boundary_reset_witness :
  validate_and_check_rate_limit (sample_env 11 None) sample_request (sample_world 5 true)
  = ({| db := {| api_keys := [sample_row 0 true]; usage_logs := [] |};
        upstream_calls := [] |},
     Ok (user_info_of_row (sample_row 5 true))).
Proof.
  apply (day_boundary_reset_lets_through
           string (sample_env 11 None) sample_request (sample_world 5 true)
           "vllm_abc" (sample_row 5 true) (day 10) 10 5
           eq_refl ltac:(discriminate) eq_refl eq_refl eq_refl eq_refl eq_refl eq_refl
           ltac:(lia) ltac:(simpl; lia)).
Defined.

(** C4.  A request whose secret is unknown to the store, or is the secret
    of a record with [is_active = false], is answered with HTTP 401 and
    leaves the store as it was; nothing is assumed about [daily_usage],
    [rate_limit] or [last_used] of any record. *)
Theorem unknown_or_inactive_secret_unauthenticated :
  forall (PyVal : Type) (env : Env PyVal) (request : Request) (w : World) (key : string),
    get_client_key request = Some key ->
    unique_api_keys (api_keys (db w)) ->
    ((forall r, r ∈ api_keys (db w) -> api_key r <> key)
     \/ (exists r, r ∈ api_keys (db w) /\ api_key r = key /\ is_active r = false)) ->
    validate_and_check_rate_limit env request w
    = (w, Raise (HTTPException 401
                   match key with
                   | EmptyString =>
                       "Missing API key. Use x-api-key header or Authorization: Bearer"
                   | String _ _ => "Invalid API key"
                   end)).
Proof.
  intros PyVal env request w key Hk Huniq Hcase.
  destruct key as [|c0 key0].
  - unfold validate_and_check_rate_limit. by rewrite Hk.
  - rewrite (gate_unfold env _ _ _ _ Hk). unfold validate_api_key.
    rewrite select_active_none; [done|].
    intros r Hr Hkey. destruct Hcase as [Hunknown | (r0 & Hr0 & Hkey0 & Hin)].
    + by destruct (Hunknown r Hr).
    + assert (r = r0) as -> by (apply (unique_key_rows_agree _ _ _ Huniq Hr Hr0); congruence).
      done.
Qed.

Lemma unknown_or_inactive_secret_witness :
  validate_and_check_rate_limit (sample_env 10 None) sample_request (sample_world 0 false)
  = (sample_world 0 false, Raise (HTTPException 401 "Invalid API key")).
Proof.
  apply (unknown_or_inactive_secret_unauthenticated
           string (sample_env 10 None) sample_request (sample_world 0 false) "vllm_abc"
           eq_refl).
  - unfold unique_api_keys. simpl. apply NoDup_singleton.
  - right. exists (sample_row 0 false). split; [apply list_elem_of_here | split; reflexivity].
Defined.

(** *** The proxy handlers *)

Section HandlerRuns.

Context {PyVal : Type} (env : Env PyVal).

Lemma json_is_unbound (w : World) :
  load_global "json" w = (w, Raise (NameError "json")).
Proof.
  unfold load_global.
  assert (bool_decide ("json" ∈ gateway_globals) = false) as -> by (vm_compute; reflexivity).
  reflexivity.
Qed.

(** A run of either inference handler: the gate, then the failing
    evaluation of the name [json], caught by the handler's own clause. *)
Lemma completions_body_run upstream_path endpoint_ request w :
  completions_body env upstream_path endpoint_ request w =
    (fst (validate_and_check_rate_limit env request w),
     match snd (validate_and_check_rate_limit env request w) with
     | Ok _ =>
         Raise (HTTPException 500 "Error connecting to vLLM: name 'json' is not defined")
     | Raise e => Raise e
     end).
Proof.
  unfold completions_body, bind at 1.
  destruct (validate_and_check_rate_limit env request w) as [w1 [ui|e]]; [|done].
  unfold try_except, bind at 1. by rewrite json_is_unbound.
Qed.

(** The cases of a run of [get_models] after the gate has let the
    request through. *)
Lemma get_models_run request w w1 user_info :
  validate_and_check_rate_limit env request w = (w1, Ok user_info) ->
  get_models env request w =
    let w2 := {| db := db w1; upstream_calls := (upstream_calls w1 ++ [models_call env])%list |} in
    match send env (models_call env) with
    | Raise e => (w2, Raise (HTTPException 500 ("Error connecting to vLLM: " ++ exn_str e)))
    | Ok response =>
        match log_usage_fault env with
        | Some e => (w2, Raise (HTTPException 500 ("Error connecting to vLLM: " ++ exn_str e)))
        | None =>
            ({| db := log_usage_commit (CURRENT_TIMESTAMP env) (ui_id user_info)
                        "/v1/models" 0 (db w1);
                upstream_calls := (upstream_calls w1 ++ [models_call env])%list |},
             match json_decode env (content response) with
             | Ok response_data =>
                 Ok {| json_status_code := status_code response;
                       json_content := response_data |}
             | Raise e =>
                 Raise (HTTPException 500 ("Error connecting to vLLM: " ++ exn_str e))
             end)
        end
    end.
Proof.
  intros Hg. unfold get_models, bind at 1. rewrite Hg.
  unfold try_except, bind, client_send, log_usage, error_500, raise.
  destruct (send env (models_call env)) as [response|e]; [|done].
  destruct (log_usage_fault env) as [e|]; [done|].
  unfold with_db, lift, ret. cbn [db upstream_calls].
  by destruct (json_decode env (content response)).
Qed.

End HandlerRuns.

(** C3.  A POST to the chat-completions or completions route that passes
    the gate ends in the handler's generic exception clause, because the
    name [json] is not bound in the module: the caller receives HTTP 500,
    no upstream call is made, and no usage is recorded (the state is the
    one the gate left). *)
Theorem inference_handlers_answer_500 :
  forall (PyVal : Type) (env : Env PyVal) (request : Request) (w w1 : World)
         (user_info : UserInfo),
    validate_and_check_rate_limit env request w = (w1, Ok user_info) ->
    chat_completions env request w
      = (w1, Raise (HTTPException 500 "Error connecting to vLLM: name 'json' is not defined"))
    /\ completions env request w
      = (w1, Raise (HTTPException 500 "Error connecting to vLLM: name 'json' is not defined"))
    /\ upstream_calls w1 = upstream_calls w
    /\ usage_logs (db w1) = usage_logs (db w)
    /\ "json" ∉ gateway_globals.
Proof.
  intros PyVal env request w w1 user_info Hg.
  unfold chat_completions, completions.
  rewrite !completions_body_run, Hg. simpl.
  pose proof (gate_frame env request w) as [Hcalls Hlogs]. rewrite Hg in Hcalls, Hlogs.
  repeat split; try done.
  apply (bool_decide_eq_false_1 ("json" ∈ gateway_globals)). vm_compute. reflexivity.
Qed.

Lemma inference_handlers_witness :
  chat_completions (sample_env 10 None) sample_request (sample_world 1 true)
  = (sample_world 1 true,
     Raise (HTTPException 500 "Error connecting to vLLM: name 'json' is not defined")).
Proof.
  apply (inference_handlers_answer_500
           string (sample_env 10 None) sample_request (sample_world 1 true)
           (sample_world 1 true) (user_info_of_row (sample_row 1 true)) eq_refl).
Defined.

(** No run of the two handlers returns a response. *)
Lemma inference_handlers_never_return
    (PyVal : Type) (env : Env PyVal) (request : Request) (w : World)
    (answer : JSONResponse PyVal) :
  snd (chat_completions env request w) <> Ok answer
  /\ snd (completions env request w) <> Ok answer.
Proof.
  unfold chat_completions, completions. rewrite !completions_body_run. simpl.
  by destruct (snd (validate_and_check_rate_limit env request w)).
Qed.

(** C9, as the specification states it, fails: with the store refusing
    the write of [log_usage], an accepted models request whose upstream
    call answered 200 is answered with an error. *)
Lemma usage_failure_not_swallowed : ~ usage_failure_swallowed.
Proof.
  intros H.
  destruct (H (sample_env 10 (Some database_locked)) models_request
              (sample_world 0 true) (sample_world 0 true)
              (user_info_of_row (sample_row 0 true))
              {| status_code := 200; content := "7654321" |}
              database_locked eq_refl eq_refl eq_refl) as [answer Hanswer].
  vm_compute in Hanswer. discriminate.
Qed.

(** C9, amended.  In [get_models], the handler that reaches [log_usage],
    a failure of [log_usage] after a successful upstream call is caught by
    the handler's generic exception clause: the caller receives HTTP 500
    carrying the text of the failure, and nothing is recorded.  When
    [log_usage] does not fail, the upstream status and decoded body are
    returned. *)
Theorem usage_failure_answers_500 :
  forall (PyVal : Type) (env : Env PyVal) (request : Request) (w w1 : World)
         (user_info : UserInfo) (response : Response),
    validate_and_check_rate_limit env request w = (w1, Ok user_info) ->
    send env (models_call env) = Ok response ->
    (forall e, log_usage_fault env = Some e ->
       get_models env request w
       = ({| db := db w1; upstream_calls := (upstream_calls w1 ++ [models_call env])%list |},
          Raise (HTTPException 500 ("Error connecting to vLLM: " ++ exn_str e))))
    /\ (forall response_data,
          log_usage_fault env = None ->
          json_decode env (content response) = Ok response_data ->
          snd (get_models env request w)
          = Ok {| json_status_code := status_code response;
                  json_content := response_data |}).
Proof.
  intros PyVal env request w w1 user_info response Hg Hsend.
  rewrite (get_models_run env _ _ _ _ Hg), Hsend. split.
  - by intros e ->.
  - by intros response_data -> ->.
Qed.

Lemma usage_failure_witness :
  get_models (sample_env 10 (Some database_locked)) models_request (sample_world 0 true)
  = ({| db := db (sample_world 0 true);
        upstream_calls := [models_call (sample_env 10 (Some database_locked))] |},
     Raise (HTTPException 500 "Error connecting to vLLM: database is locked")).
Proof.
  apply (proj1 (usage_failure_answers_500
                  string (sample_env 10 (Some database_locked)) models_request
                  (sample_world 0 true) (sample_world 0 true)
                  (user_info_of_row (sample_row 0 true))
                  {| status_code := 200; content := "7654321" |}
                  eq_refl eq_refl) database_locked eq_refl).
Defined.

(** *** The recorded cost *)

Lemma estimate_tokens_nonneg request_text response_text :
  0 <= estimate_tokens request_text response_text.
Proof.
  unfold estimate_tokens.
  pose proof (Z.div_pos (Z.of_nat (String.length request_text)) 4).
  pose proof (Z.div_pos (Z.of_nat (String.length response_text)) 4).
  lia.
Qed.





(** *** The counter stays non-negative *)

Lemma reset_daily_usage_nonneg key rows :
  nonneg_usage rows -> nonneg_usage (reset_daily_usage key rows).
Proof.
  unfold nonneg_usage, reset_daily_usage. intros H.
  apply Forall_map. eapply Forall_impl; [exact H|].
  intros r Hr. simpl. by destruct (String.eqb (api_key r) key).
Qed.

Lemma add_usage_nonneg stamp key tokens rows :
  0 <= tokens -> nonneg_usage rows -> nonneg_usage (add_usage stamp key tokens rows).
Proof.
  unfold nonneg_usage, add_usage. intros Ht H.
  apply Forall_map. eapply Forall_impl; [exact H|].
  intros r Hr. simpl in *. destruct (String.eqb (api_key r) key); simpl; lia.
Qed.

Lemma check_rate_limit_nonneg now_ key d :
  nonneg_usage (api_keys d) -> nonneg_usage (api_keys (fst (check_rate_limit now_ key d))).
Proof.
  intros H. unfold check_rate_limit.
  destruct (select_by_api_key key (api_keys d)) as [c|]; [|done].
  destruct c as [i n e k rl du [lu|] ca act]; simpl; [|done].
  destruct (date lu <? date now_); [|done]. by apply reset_daily_usage_nonneg.
Qed.

Lemma gate_nonneg (PyVal : Type) (env : Env PyVal) (request : Request) (w : World) :
  nonneg_usage (api_keys (db w)) ->
  nonneg_usage (api_keys (db (fst (validate_and_check_rate_limit env request w)))).
Proof.
  intros H. unfold validate_and_check_rate_limit.
  destruct (get_client_key request) as [[|c0 key0]|]; try done.
  destruct w as [d calls]. unfold bind, with_db. cbn [db upstream_calls] in *.
  destruct (validate_api_key d (String c0 key0)) as [ui|]; [|done].
  cbn [db upstream_calls].
  pose proof (check_rate_limit_nonneg (now env) (String c0 key0) d H) as Hc.
  destruct (check_rate_limit (now env) (String c0 key0) d) as [d' []]; done.
Qed.

(** Every handler keeps [daily_usage >= 0] in every row: the counter is
    only reset to 0 or increased by a cost that is not negative. *)
Lemma handlers_keep_usage_nonneg
    (PyVal : Type) (env : Env PyVal) (request : Request) (w : World) :
  nonneg_usage (api_keys (db w)) ->
  nonneg_usage (api_keys (db (fst (get_models env request w))))
  /\ nonneg_usage (api_keys (db (fst (chat_completions env request w))))
  /\ nonneg_usage (api_keys (db (fst (completions env request w)))).
Proof.
  intros H. pose proof (gate_nonneg PyVal env request w H) as Hg.
  split; [|split].
  - destruct (validate_and_check_rate_limit env request w) as [w1 [ui|e]] eqn:Heq.
    + rewrite (get_models_run env _ _ _ _ Heq). simpl in Hg.
      destruct (send env (models_call env)) as [response|e]; [|done].
      destruct (log_usage_fault env) as [e|]; [done|].
      simpl. by apply add_usage_nonneg.
    + unfold get_models, bind. by rewrite Heq.
  - unfold chat_completions. by rewrite completions_body_run.
  - unfold completions. by rewrite completions_body_run.
Qed.

End GatewayFacts.

(** ** Properties of the load balancer *)

Module BalancerFacts.

Import Balancer.
Local Open Scope list_scope.
Local Open Scope Z_scope.

(** *** Healthy gateways *)

Lemma healthy_of_total (status : gmap string bool) (l : list string) :
  (forall g, g ∈ l -> is_Some (status !! g)) ->
  exists healthy, healthy_of status l = Ok healthy.
Proof.
  induction l as [|g l IH]; intros Hdef; simpl; [by eexists|].
  destruct (Hdef g (list_elem_of_here _ _)) as [h Hh].
  destruct IH as [rest Hrest].
  { intros g' Hg'. apply Hdef. by apply list_elem_of_further. }
  unfold dict_get. rewrite Hh, Hrest. by eexists.
Qed.

Lemma healthy_of_elem (status : gmap string bool) (l healthy : list string) (g : string) :
  healthy_of status l = Ok healthy -> g ∈ healthy ->
  g ∈ l /\ status !! g = Some true.
Proof.
  revert healthy. induction l as [|g0 l IH]; intros healthy; simpl.
  - intros [= <-] Hin. by apply not_elem_of_nil in Hin.
  - unfold dict_get. destruct (status !! g0) as [h|] eqn:Hh; [|done].
    destruct (healthy_of status l) as [rest|e]; [|done].
    intros [= <-] Hin. destruct h.
    + apply elem_of_cons in Hin as [->|Hin].
      * split; [apply list_elem_of_here | done].
      * destruct (IH rest eq_refl Hin). split; [by apply list_elem_of_further | done].
    + destruct (IH rest eq_refl Hin). split; [by apply list_elem_of_further | done].
Qed.


(** *** The minimum scan *)

Lemma min_scan_first_least (counts : gmap string Z) (l : list string) :
  forall (pre0 : list string) (best : string) (best_key : Z) (post0 : list string),
    counts !! best = Some best_key ->
    counts_above counts best_key pre0 ->
    counts_at_least counts best_key post0 ->
    (forall g, g ∈ l -> is_Some (counts !! g)) ->
    exists sel, min_scan counts best best_key l = Ok sel
                /\ first_least counts (pre0 ++ best :: post0 ++ l) sel.
Proof.
  induction l as [|g l IH]; intros pre0 best best_key post0 Hbest Hpre Hpost Hdef; simpl.
  - exists best. split; [done|]. exists pre0, post0, best_key.
    rewrite app_nil_r. done.
  - destruct (Hdef g (list_elem_of_here _ _)) as [k Hk].
    assert (Hdef' : forall g', g' ∈ l -> is_Some (counts !! g')).
    { intros g' Hg'. apply Hdef. by apply list_elem_of_further. }
    unfold dict_get. rewrite Hk.
    destruct (k <? best_key) eqn:Hlt.
    + apply Z.ltb_lt in Hlt.
      destruct (IH (pre0 ++ best :: post0) g k [] Hk) as (sel & Hsel & Hfirst); [| |done|].
      * intros g' Hg'. apply elem_of_app in Hg' as [Hg'|Hg'].
        -- destruct (Hpre g' Hg') as (cg & ? & ?). exists cg. split; [done|lia].
        -- apply elem_of_cons in Hg' as [->|Hg'].
           ++ exists best_key. split; [done|lia].
           ++ destruct (Hpost g' Hg') as (cg & ? & ?). exists cg. split; [done|lia].
      * intros g' Hg'. by apply not_elem_of_nil in Hg'.
      * exists sel. split; [done|].
        by rewrite <- app_assoc in Hfirst.
    + apply Z.ltb_ge in Hlt.
      destruct (IH pre0 best best_key (post0 ++ [g]) Hbest Hpre) as (sel & Hsel & Hfirst);
        [|done|].
      * intros g' Hg'. apply elem_of_app in Hg' as [Hg'|Hg'].
        -- by apply Hpost.
        -- apply list_elem_of_singleton in Hg' as ->. exists k. split; [done|lia].
      * exists sel. split; [done|].
        by rewrite <- app_assoc in Hfirst.
Qed.

Lemma min_by_request_count_first_least (counts : gmap string Z) (l : list string) :
  l <> [] ->
  (forall g, g ∈ l -> is_Some (counts !! g)) ->
  exists sel, min_by_request_count counts l = Ok sel /\ first_least counts l sel.
Proof.
  intros Hne Hdef. destruct l as [|g l]; [done|]. simpl.
  destruct (Hdef g (list_elem_of_here _ _)) as [k Hk].
  unfold dict_get. rewrite Hk.
  destruct (min_scan_first_least counts l [] g k [] Hk) as (sel & Hsel & Hfirst).
  - intros g' Hg'. by apply not_elem_of_nil in Hg'.
  - intros g' Hg'. by apply not_elem_of_nil in Hg'.
  - intros g' Hg'. apply Hdef. by apply list_elem_of_further.
  - by exists sel.
Qed.

(** The first least item is determined by the list and the counts. *)
Lemma first_least_unique (counts : gmap string Z) (l : list string) (s1 s2 : string) :
  first_least counts l s1 -> first_least counts l s2 -> s1 = s2.
Proof.
  intros (pre1 & post1 & c1 & Hl1 & Hc1 & Hpre1 & Hpost1)
         (pre2 & post2 & c2 & Hl2 & Hc2 & Hpre2 & Hpost2).
  assert (Hin1 : s1 ∈ l) by (rewrite Hl1; apply elem_of_app; right; apply list_elem_of_here).
  assert (Hin2 : s2 ∈ l) by (rewrite Hl2; apply elem_of_app; right; apply list_elem_of_here).
  assert (Hle12 : c1 <= c2).
  { rewrite Hl1 in Hin2. apply elem_of_app in Hin2 as [Hin2|Hin2].
    - destruct (Hpre1 _ Hin2) as (cg & Hcg & ?). rewrite Hc2 in Hcg. injection Hcg as <-. lia.
    - apply elem_of_cons in Hin2 as [->|Hin2].
      + rewrite Hc1 in Hc2. injection Hc2 as <-. lia.
      + destruct (Hpost1 _ Hin2) as (cg & Hcg & ?). rewrite Hc2 in Hcg.
        injection Hcg as <-. lia. }
  assert (Hle21 : c2 <= c1).
  { rewrite Hl2 in Hin1. apply elem_of_app in Hin1 as [Hin1|Hin1].
    - destruct (Hpre2 _ Hin1) as (cg & Hcg & ?). rewrite Hc1 in Hcg. injection Hcg as <-. lia.
    - apply elem_of_cons in Hin1 as [->|Hin1].
      + rewrite Hc1 in Hc2. injection Hc2 as <-. lia.
      + destruct (Hpost2 _ Hin1) as (cg & Hcg & ?). rewrite Hc1 in Hcg.
        injection Hcg as <-. lia. }
  assert (c1 = c2) as <- by lia.
  assert (Hnot1 : s1 ∉ pre2).
  { intros Hin. destruct (Hpre2 _ Hin) as (cg & Hcg & ?). rewrite Hc1 in Hcg.
    injection Hcg as <-. lia. }
  assert (Hnot2 : s2 ∉ pre1).
  { intros Hin. destruct (Hpre1 _ Hin) as (cg & Hcg & ?). rewrite Hc2 in Hcg.
    injection Hcg as <-. lia. }
  clear -Hl1 Hl2 Hnot1 Hnot2. subst l.
  revert pre2 Hl2 Hnot1 Hnot2.
  induction pre1 as [|a pre1 IH]; intros [|b pre2] Heq Hnot1 Hnot2; simpl in Heq.
  - by injection Heq.
  - injection Heq as -> _. exfalso. apply Hnot1, list_elem_of_here.
  - injection Heq as -> _. exfalso. apply Hnot2, list_elem_of_here.
  - injection Heq as -> Heq. apply (IH pre2 Heq).
    + intros Hin. apply Hnot1. by apply list_elem_of_further.
    + intros Hin. apply Hnot2. by apply list_elem_of_further.
Qed.

(** *** Selection *)

Lemma select_min_and_count_run (self : LoadBalancer) (healthy : list string) :
  healthy <> [] ->
  (forall g, g ∈ healthy -> is_Some (request_counts self !! g)) ->
  exists (sel : string) (c : Z),
    first_least (request_counts self) healthy sel
    /\ request_counts self !! sel = Some c
    /\ select_min_and_count healthy self
       = (set_request_counts (<[sel := c + 1]> (request_counts self)) self, Ok sel).
Proof.
  intros Hne Hdef.
  destruct (min_by_request_count_first_least _ _ Hne Hdef) as (sel & Hsel & Hfirst).
  pose proof Hfirst as (pre & post & c & _ & Hc & _).
  exists sel, c. split; [done|]. split; [done|].
  unfold select_min_and_count, bind, get, lift, put, ret. rewrite Hsel.
  unfold dict_get. by rewrite Hc.
Qed.

Lemma select_gateway_round_robin (r : nat) (self : LoadBalancer) (healthy : list string) :
  get_healthy_gateways self = Ok healthy ->
  healthy <> [] ->
  select_gateway r (Some "round_robin"%string) self = select_min_and_count healthy self.
Proof.
  intros Hh Hne. unfold select_gateway, bind at 1, get. unfold bind at 1, lift.
  rewrite Hh. by destruct healthy.
Qed.

Lemma healthy_counts_defined (self : LoadBalancer) (healthy : list string) :
  lb_wf self ->
  get_healthy_gateways self = Ok healthy ->
  forall g, g ∈ healthy -> is_Some (request_counts self !! g).
Proof.
  intros Hwf Hh g Hg.
  destruct (healthy_of_elem _ _ _ _ Hh Hg) as [Hin _].
  unfold lb_wf in Hwf. rewrite Forall_forall in Hwf.
  by destruct (Hwf g Hin) as (_ & ? & _).
Qed.

(** C5.  With a non-empty list of healthy gateways, selection under the
    strategy named ["round_robin"] returns the first gateway, in
    registration order, whose request count is least among the healthy
    ones; the choice depends on nothing but the list and the counts; and
    the only change to the balancer is that the count of the chosen
    gateway goes up by one. *)
Theorem round_robin_selects_first_least_loaded :
  forall (self : LoadBalancer) (healthy : list string),
    lb_wf self ->
    get_healthy_gateways self = Ok healthy ->
    healthy <> [] ->
    exists (sel : string) (c : Z),
      first_least (request_counts self) healthy sel
      /\ (forall sel', first_least (request_counts self) healthy sel' -> sel' = sel)
      /\ request_counts self !! sel = Some c
      /\ (forall r : nat,
            select_gateway r (Some "round_robin"%string) self
            = (set_request_counts (<[sel := c + 1]> (request_counts self)) self, Ok sel))
      /\ (forall r : nat,
            let self' := fst (select_gateway r (Some "round_robin"%string) self) in
            request_counts self' !! sel = Some (c + 1)
            /\ (forall g, g <> sel -> request_counts self' !! g = request_counts self !! g)
            /\ health_status self' = health_status self
            /\ last_health_check self' = last_health_check self
            /\ gateways self' = gateways self).
Proof.
  intros self healthy Hwf Hh Hne.
  destruct (select_min_and_count_run self healthy Hne (healthy_counts_defined _ _ Hwf Hh))
    as (sel & c & Hfirst & Hc & Hrun).
  exists sel, c. split; [done|]. split.
  { intros sel' Hfirst'. by apply (first_least_unique _ _ _ _ Hfirst' Hfirst). }
  split; [done|]. split.
  - intros r. by rewrite (select_gateway_round_robin r self healthy Hh Hne).
  - intros r. rewrite (select_gateway_round_robin r self healthy Hh Hne), Hrun. simpl.
    split; [apply lookup_insert_eq|]. split; [|done].
    intros g Hg. by apply lookup_insert_ne.
Qed.

Lemma sample_lb_wf : lb_wf sample_lb.
Proof. repeat constructor; vm_compute; eauto. Qed.

Lemma round_robin_witness :
  exists (sel : string) (c : Z),
    first_least (request_counts sample_lb) (gateways sample_lb) sel
    /\ (forall sel', first_least (request_counts sample_lb) (gateways sample_lb) sel'
                     -> sel' = sel)
    /\ request_counts sample_lb !! sel = Some c
    /\ (forall r : nat,
          select_gateway r (Some "round_robin"%string) sample_lb
          = (set_request_counts (<[sel := c + 1]> (request_counts sample_lb)) sample_lb,
             Ok sel))
    /\ (forall r : nat,
          let self' := fst (select_gateway r (Some "round_robin"%string) sample_lb) in
          request_counts self' !! sel = Some (c + 1)
          /\ (forall g, g <> sel -> request_counts self' !! g = request_counts sample_lb !! g)
          /\ health_status self' = health_status sample_lb
          /\ last_health_check self' = last_health_check sample_lb
          /\ gateways self' = gateways sample_lb).
Proof.
  apply (round_robin_selects_first_least_loaded sample_lb (gateways sample_lb) sample_lb_wf).
  - vm_compute. reflexivity.
  - discriminate.
Defined.

(** Counts 5, 3, 3: the second gateway, the first of the two with count
    3, is chosen and its count becomes 4. *)
Example round_robin_5_3_3 :
  select_gateway O (Some "round_robin"%string) sample_lb
  = (set_request_counts (<["http://localhost:8002"%string := 4]> (request_counts sample_lb))
       sample_lb,
     Ok "http://localhost:8002"%string).
Proof. vm_compute. reflexivity. Qed.

(** C6.  Under the strategy named ["least_connections"], under a name
    that [select_gateway] does not know, and when the argument is left
    out, selection returns the same gateway and the same balancer as under
    the least-loaded strategy (named ["round_robin"]): every strategy
    argument other than ["random"] behaves so. *)
Theorem other_strategies_select_as_least_loaded :
  forall (r : nat) (strategy : option string) (self : LoadBalancer),
    strategy <> Some "random"%string ->
    select_gateway r strategy self = select_gateway r (Some "round_robin"%string) self.
Proof.
  intros r strategy self Hnot.
  destruct strategy as [s|]; [|done].
  assert (Hrand : String.eqb s "random" = false).
  { apply String.eqb_neq. congruence. }
  unfold select_gateway, bind, get, lift.
  change (default "round_robin"%string (Some s)) with s.
  destruct (get_healthy_gateways self) as [[|g healthy]|e]; try done.
  rewrite Hrand.
  by destruct (String.eqb s "round_robin"), (String.eqb s "least_connections").
Qed.

Lemma other_strategies_witness :
  select_gateway O (Some "least_connections"%string) sample_lb
  = select_gateway O (Some "round_robin"%string) sample_lb
  /\ select_gateway O (Some "least_loaded"%string) sample_lb
     = select_gateway O (Some "round_robin"%string) sample_lb
  /\ select_gateway O None sample_lb
     = select_gateway O (Some "round_robin"%string) sample_lb.
Proof.
  split; [|split].
  - apply (other_strategies_select_as_least_loaded
             O (Some "least_connections"%string) sample_lb).
    discriminate.
  - apply (other_strategies_select_as_least_loaded
             O (Some "least_loaded"%string) sample_lb).
    discriminate.
  - apply (other_strategies_select_as_least_loaded O None sample_lb).
    discriminate.
Defined.

(** *** The lazy health refresh *)

Section Refresh.

Variable env : Env.

Lemma refresh_frame_refl w : refresh_frame w w.
Proof. by repeat split. Qed.

Lemma refresh_frame_trans w1 w2 w3 :
  refresh_frame w1 w2 -> refresh_frame w2 w3 -> refresh_frame w1 w3.
Proof.
  intros (H1 & H2 & H3 & H4 & H5) (K1 & K2 & K3 & K4 & K5).
  repeat split; try congruence; auto.
Qed.

(** One turn of the loop, for a gateway that has a time stamp. *)
Lemma update_gateway_run (t : Z) (gateway : string) (w : World) (last : Z) :
  last_health_check (lb w) !! gateway = Some last ->
  update_gateway env t gateway w =
    (if t - last >? health_check_interval (lb w)
     then {| lb := set_health gateway
                     match probe env (gateway ++ "/health")%string with
                     | Ok status => status =? 200
                     | Raise _ => false
                     end t (lb w);
             upstream_calls := upstream_calls w;
             probe_calls := probe_calls w ++ [(gateway ++ "/health")%string] |}
     else w,
     Ok tt).
Proof.
  intros Hlast. destruct w as [self calls probes].
  unfold update_gateway, bind, with_lb, get, lift, dict_get.
  cbn [lb upstream_calls probe_calls] in *.
  rewrite Hlast.
  destruct (t - last >? health_check_interval self); [|done].
  unfold health_check, put. by cbn [lb upstream_calls probe_calls].
Qed.

Lemma update_gateway_missing (t : Z) (gateway : string) (w : World) :
  last_health_check (lb w) !! gateway = None ->
  update_gateway env t gateway w = (w, Raise (KeyError gateway)).
Proof.
  intros Hlast. destruct w as [self calls probes].
  unfold update_gateway, bind, with_lb, get, lift, dict_get.
  cbn [lb upstream_calls probe_calls] in *.
  by rewrite Hlast.
Qed.

Lemma update_gateway_frame (t : Z) (gateway : string) (w : World) :
  refresh_frame w (fst (update_gateway env t gateway w)).
Proof.
  destruct (last_health_check (lb w) !! gateway) as [last|] eqn:Hlast.
  - rewrite (update_gateway_run t gateway w last Hlast).
    destruct (t - last >? health_check_interval (lb w)); [|apply refresh_frame_refl].
    repeat split; simpl; intros g Hg; apply lookup_insert_is_Some;
      destruct (decide (gateway = g)); auto.
  - rewrite (update_gateway_missing t gateway w Hlast). apply refresh_frame_refl.
Qed.

Lemma for_each_update_frame (t : Z) (l : list string) :
  forall w, refresh_frame w (fst (for_each l (update_gateway env t) w)).
Proof.
  induction l as [|g l IH]; intros w; simpl; [apply refresh_frame_refl|].
  unfold bind. pose proof (update_gateway_frame t g w) as Hstep.
  destruct (update_gateway env t g w) as [w1 [[]|e]]; simpl in *; [|done].
  eapply refresh_frame_trans; [exact Hstep | apply IH].
Qed.

Lemma for_each_update_ok (t : Z) (l : list string) :
  forall w,
    (forall g, g ∈ l -> is_Some (last_health_check (lb w) !! g)) ->
    snd (for_each l (update_gateway env t) w) = Ok tt.
Proof.
  induction l as [|g l IH]; intros w Hdef; simpl; [done|].
  unfold bind. pose proof (update_gateway_frame t g w) as Hstep.
  destruct (Hdef g (list_elem_of_here _ _)) as [last Hlast].
  pose proof (update_gateway_run t g w last Hlast) as Hrun.
  destruct (update_gateway env t g w) as [w1 r]. injection Hrun as Hw1 ->.
  apply IH. intros g' Hg'. destruct Hstep as (_ & _ & _ & Hkeep & _).
  apply Hkeep, Hdef. by apply list_elem_of_further.
Qed.

Lemma update_health_status_unfold (w : World) :
  update_health_status env w
  = for_each (gateways (lb w)) (update_gateway env (time_now env)) w.
Proof. by destruct w. Qed.

Lemma update_health_status_frame (w : World) :
  refresh_frame w (fst (update_health_status env w)).
Proof. rewrite update_health_status_unfold. apply for_each_update_frame. Qed.

Lemma update_health_status_ok (w : World) :
  lb_wf (lb w) -> snd (update_health_status env w) = Ok tt.
Proof.
  intros Hwf. rewrite update_health_status_unfold. apply for_each_update_ok.
  intros g Hg. unfold lb_wf in Hwf. rewrite Forall_forall in Hwf.
  by destruct (Hwf g Hg) as (_ & _ & ?).
Qed.

(** When no probe answers 200, a gateway marked unhealthy stays so. *)
Lemma for_each_update_keeps_unhealthy (t : Z) (l : list string) :
  (forall url, probe env url <> Ok 200) ->
  forall w g,
    health_status (lb w) !! g = Some false ->
    health_status (lb (fst (for_each l (update_gateway env t) w))) !! g = Some false.
Proof.
  intros Hprobe. induction l as [|g0 l IH]; intros w g Hg; simpl; [done|].
  unfold bind.
  assert (Hstep : health_status (lb (fst (update_gateway env t g0 w))) !! g = Some false).
  { destruct (last_health_check (lb w) !! g0) as [last|] eqn:Hlast.
    - rewrite (update_gateway_run t g0 w last Hlast).
      destruct (t - last >? health_check_interval (lb w)); [|done]. simpl.
      destruct (decide (g0 = g)) as [->|Hne]; [|by rewrite lookup_insert_ne].
      rewrite lookup_insert_eq.
      destruct (probe env (g ++ "/health")%string) as [status|e] eqn:Hp; [|done].
      destruct (status =? 200) eqn:Hs; [|done].
      apply Z.eqb_eq in Hs as ->. by destruct (Hprobe _ Hp).
    - by rewrite (update_gateway_missing t g0 w Hlast). }
  destruct (update_gateway env t g0 w) as [w1 [[]|e]]; simpl in *; [|done].
  by apply IH.
Qed.

Lemma refresh_keeps_all_unhealthy (w : World) :
  (forall url, probe env url <> Ok 200) ->
  all_unhealthy (lb w) ->
  all_unhealthy (lb (fst (update_health_status env w))).
Proof.
  intros Hprobe Hall g Hg.
  destruct (update_health_status_frame w) as (_ & _ & Hgw & _).
  rewrite Hgw in Hg. rewrite update_health_status_unfold.
  by apply for_each_update_keeps_unhealthy, Hall.
Qed.

(** *** Forwarding *)


Lemma proxy_request_upstream_failure
    (request : Request) (gateway path : string) (w : World) (e : exn) :
  send env (forwarded_call request gateway path) = Raise e ->
  proxy_request env request gateway path w
  = ({| lb := lb w;
        upstream_calls := upstream_calls w ++ [forwarded_call request gateway path];
        probe_calls := probe_calls w |},
     Raise (HTTPException 502 ("Gateway error: " ++ exn_str e)%string)).
Proof.
  intros Hsend. unfold proxy_request, try_except, bind, client_request, raise.
  by rewrite Hsend.
Qed.

(** A request that is forwarded while every call to a gateway fails: one
    gateway is chosen and counted, one call is made, and the 502 raised by
    [proxy_request] is replaced by 503 in [proxy_all]. *)
Lemma proxy_all_upstream_failure
    (request : Request) (path : string) (w : World) (healthy : list string) :
  lb_wf (lb w) ->
  get_healthy_gateways (lb (fst (update_health_status env w))) = Ok healthy ->
  healthy <> [] ->
  (forall call, exists e, send env call = Raise e) ->
  exists (sel : string) (c : Z),
    first_least (request_counts (lb w)) healthy sel
    /\ request_counts (lb w) !! sel = Some c
    /\ proxy_all env request path w
       = ({| lb := set_request_counts (<[sel := c + 1]> (request_counts (lb w)))
                     (lb (fst (update_health_status env w)));
             upstream_calls :=
               upstream_calls w ++ [forwarded_call request sel ("/" ++ path)%string];
             probe_calls := probe_calls (fst (update_health_status env w)) |},
          Raise (HTTPException 503 "Service temporarily unavailable")).
Proof.
  intros Hwf Hh Hne Hsend.
  pose proof (update_health_status_ok w Hwf) as Hok.
  pose proof (update_health_status_frame w) as (Hcalls & Hcounts & Hgw & _ & _).
  destruct (update_health_status env w) as [w1 r] eqn:Hrefresh. simpl in *. subst r.
  destruct (select_min_and_count_run (lb w1) healthy Hne) as (sel & c & Hfirst & Hc & Hrun).
  { intros g Hg. destruct (healthy_of_elem _ _ _ _ Hh Hg) as [Hin _].
    rewrite Hgw in Hin. rewrite Hcounts.
    unfold lb_wf in Hwf. rewrite Forall_forall in Hwf.
    by destruct (Hwf g Hin) as (_ & ? & _). }
  rewrite Hcounts in Hfirst, Hc, Hrun.
  exists sel, c. split; [done|]. split; [done|].
  unfold proxy_all, bind at 1. rewrite Hrefresh.
  unfold try_except, bind, with_lb.
  rewrite (select_gateway_round_robin _ _ _ Hh Hne), Hrun.
  destruct (Hsend (forwarded_call request sel ("/" ++ path)%string)) as [e He].
  rewrite (proxy_request_upstream_failure _ _ _ _ e He).
  unfold raise. cbn [lb upstream_calls probe_calls]. by rewrite Hcalls.
Qed.

End Refresh.




(** C8 at a failing input: the selected gateway refuses the connection.
    [proxy_request] raises HTTP 502, but [proxy_all], which calls it inside
    its own [try], answers the caller with HTTP 503; exactly one call was
    made, to one gateway. *)
Theorem upstream_failure_answered_503 :
  snd (proxy_request env_upstream_refuses sample_request
         "http://localhost:8002" "/v1/models" sample_world)
  = Raise (HTTPException 502 "Gateway error: All connection attempts failed")
  /\ snd (proxy_all env_upstream_refuses sample_request "v1/models" sample_world)
     = Raise (HTTPException 503 "Service temporarily unavailable")
  /\ upstream_calls (fst (proxy_all env_upstream_refuses sample_request "v1/models"
                            sample_world))
     = [forwarded_call sample_request "http://localhost:8002" "/v1/models"].
Proof. vm_compute. done. Qed.

End BalancerFacts.

(** ** Further properties of gateway.py *)

Module GatewayMore.

Import Gateway GatewayAdmin GatewayFacts.
Local Open Scope Z_scope.

(** *** Reading the secret from the headers *)

Lemma replace_from_skip (old new s1 s2 : string) :
  replace_from old new (String.length s1) (s1 ++ s2) = replace_from old new O s2.
Proof. induction s1 as [|c s1 IH]; simpl; [by destruct s2 | done]. Qed.

Lemma replace_from_no_occurrence (old new s : string) :
  occurs old s = false -> replace_from old new O s = s.
Proof.
  induction s as [|c s IH]; simpl; [done|].
  intros H. apply orb_false_iff in H as [Hp Ho].
  change (String.prefix old (String c s)) with
    (match old with
     | EmptyString => true
     | String a old' => match ascii_dec a c with
                        | left _ => String.prefix old' s
                        | right _ => false
                        end
     end) in Hp |- *.
  rewrite Hp. by rewrite IH.
Qed.

Lemma lstrip_id (s : string) : starts_with_space s = false -> lstrip s = s.
Proof. destruct s as [|c s]; simpl; [done|]. by intros ->. Qed.

Lemma rstrip_id (s : string) : ends_with_space s = false -> rstrip s = s.
Proof.
  induction s as [|c s IH]; [done|].
  destruct s as [|c' s'].
  - simpl. by intros ->.
  - intros H. change (ends_with_space (String c' s') = false) in H.
    specialize (IH H).
    change (rstrip (String c (String c' s')))
      with (match rstrip (String c' s') with
            | EmptyString => if isspace c then EmptyString else String c EmptyString
            | r => String c r
            end).
    by rewrite IH.
Qed.

Lemma strip_id (s : string) :
  starts_with_space s = false -> ends_with_space s = false -> strip s = s.
Proof. intros H1 H2. unfold strip. by rewrite (lstrip_id _ H1), (rstrip_id _ H2). Qed.

Lemma replace_bearer (token : string) :
  occurs "Bearer " token = false ->
  replace ("Bearer " ++ token) "Bearer " EmptyString = token.
Proof.
  intros H. unfold replace.
  change ("Bearer " ++ token)%string with (String "B" ("earer " ++ token)).
  change (replace_from "Bearer " EmptyString O (String "B" ("earer " ++ token)))
    with (if String.prefix "Bearer " (String "B" ("earer " ++ token))
          then (EmptyString ++
                replace_from "Bearer " EmptyString (String.length "earer ")
                  ("earer " ++ token))%string
          else String "B" (replace_from "Bearer " EmptyString O ("earer " ++ token))).
  assert (String.prefix "Bearer " (String "B" ("earer " ++ token)) = true) as ->.
  { simpl. by destruct token. }
  rewrite replace_from_skip. simpl. by apply replace_from_no_occurrence.
Qed.

(** The gate looks at a request only through [get_client_key]. *)
Lemma gate_same_key (PyVal : Type) (env : Env PyVal) (r1 r2 : Request) (w : World) :
  get_client_key r1 = get_client_key r2 ->
  validate_and_check_rate_limit env r1 w = validate_and_check_rate_limit env r2 w.
Proof. intros H. unfold validate_and_check_rate_limit. by rewrite H. Qed.

(** X1.  A non-empty [x-api-key] header is the secret, whatever else the
    request carries: two requests with the same non-empty [x-api-key] get
    the same answer from the gate and leave the same store, even if their
    [authorization] headers differ. *)
Theorem x_api_key_takes_precedence :
  forall (PyVal : Type) (env : Env PyVal) (r1 r2 : Request) (w : World) (key : string),
    headers_get (headers r1) "x-api-key" = Some key ->
    headers_get (headers r2) "x-api-key" = Some key ->
    key <> EmptyString ->
    get_client_key r1 = Some key
    /\ get_client_key r2 = Some key
    /\ validate_and_check_rate_limit env r1 w = validate_and_check_rate_limit env r2 w.
Proof.
  intros PyVal env r1 r2 w key H1 H2 Hne.
  assert (Hk : forall r, headers_get (headers r) "x-api-key" = Some key ->
                         get_client_key r = Some key).
  { intros r Hr. unfold get_client_key. rewrite Hr. by destruct key. }
  split; [by apply Hk|]. split; [by apply Hk|].
  apply gate_same_key. by rewrite (Hk r1 H1), (Hk r2 H2).
Qed.

Lemma x_api_key_witness :
  get_client_key models_request = Some "vllm_abc"%string
  /\ get_client_key
       {| method := "GET"; url_path := "/v1/models";
          headers := [("authorization", "Bearer other"); ("x-api-key", "vllm_abc")]%string;
          query_params := EmptyString; body := EmptyString |} = Some "vllm_abc"%string.
Proof.
  pose proof (x_api_key_takes_precedence string (sample_env 10 None) models_request
                {| method := "GET"; url_path := "/v1/models";
                   headers := [("authorization", "Bearer other"); ("x-api-key", "vllm_abc")]%string;
                   query_params := EmptyString; body := EmptyString |}
                (sample_world 0 true) "vllm_abc" eq_refl eq_refl ltac:(discriminate))
    as (H1 & H2 & _).
  exact (conj H1 H2).
Defined.

(** X2.  Without a usable [x-api-key] header, an [authorization] header
    made of ["Bearer "] and a token yields the token, provided the token
    has no white space at either end and does not itself contain
    ["Bearer "] (every occurrence of that text is removed, and the rest is
    stripped). *)
Theorem bearer_token_is_extracted :
  forall (request : Request) (token : string),
    truthy (headers_get (headers request) "x-api-key") = false ->
    headers_get (headers request) "authorization" = Some ("Bearer " ++ token)%string ->
    occurs "Bearer " token = false ->
    starts_with_space token = false ->
    ends_with_space token = false ->
    get_client_key request = Some token.
Proof.
  intros request token Hx Ha Ho Hs He.
  unfold get_client_key. rewrite Hx, Ha.
  assert (truthy (Some ("Bearer " ++ token)%string) = true) as -> by done.
  assert (startswith ("Bearer " ++ token) "Bearer " = true) as ->.
  { unfold startswith. simpl. by destruct token. }
  simpl. by rewrite (replace_bearer _ Ho), (strip_id _ Hs He).
Qed.

Lemma bearer_token_witness :
  get_client_key (bearer_request "Bearer vllm_abc") = Some "vllm_abc"%string.
Proof.
  apply (bearer_token_is_extracted (bearer_request "Bearer vllm_abc") "vllm_abc"
           eq_refl eq_refl eq_refl eq_refl eq_refl).
Defined.

(** A token that contains ["Bearer "] does not come back whole. *)
Example bearer_inside_token_is_removed :
  get_client_key (bearer_request "Bearer key-of-Bearer 7") = Some "key-of-7"%string.
Proof. reflexivity. Qed.

(** X3.  A request with no usable [x-api-key] header whose
    [authorization] header is absent, does not start with ["Bearer "]
    (the match is case-sensitive), or holds nothing but white space after
    it, is answered 401 "Missing API key" and the store is not touched. *)
Theorem missing_credentials_answer_401 :
  forall (PyVal : Type) (env : Env PyVal) (request : Request) (w : World),
    truthy (headers_get (headers request) "x-api-key") = false ->
    (forall a, headers_get (headers request) "authorization" = Some a ->
               startswith a "Bearer " = false
               \/ strip (replace a "Bearer " EmptyString) = EmptyString) ->
    validate_and_check_rate_limit env request w
    = (w, Raise (HTTPException 401
                   "Missing API key. Use x-api-key header or Authorization: Bearer")).
Proof.
  intros PyVal env request w Hx Ha.
  assert (Hkey : truthy (get_client_key request) = false).
  { unfold get_client_key. rewrite Hx.
    destruct (headers_get (headers request) "authorization") as [a|]; [|done].
    destruct (Ha a eq_refl) as [Hs | He].
    - rewrite Hs. by rewrite andb_false_r.
    - destruct (truthy (Some a) && startswith a "Bearer "); [|done].
      by rewrite He. }
  unfold validate_and_check_rate_limit.
  by destruct (get_client_key request) as [[|c k]|].
Qed.

Lemma missing_credentials_witness :
  validate_and_check_rate_limit (sample_env 10 None) (bearer_request "bearer vllm_abc")
    (sample_world 0 true)
  = (sample_world 0 true,
     Raise (HTTPException 401
              "Missing API key. Use x-api-key header or Authorization: Bearer")).
Proof.
  apply (missing_credentials_answer_401 string (sample_env 10 None)
           (bearer_request "bearer vllm_abc") (sample_world 0 true) eq_refl).
  intros a [= <-]. left. reflexivity.
Defined.

(** *** What the handlers do to the table of keys *)

Lemma validate_some_row (d : Database) (key : string) (ui : UserInfo) :
  validate_api_key d key = Some ui ->
  exists c, c ∈ api_keys d /\ ui = user_info_of_row c
            /\ api_key c = key /\ is_active c = true.
Proof.
  unfold validate_api_key, select_active_by_api_key.
  destruct (List.find _ (api_keys d)) as [c|] eqn:Hfind; [|done].
  intros [= <-]. apply List.find_some in Hfind as [Hin Hc].
  apply andb_true_iff in Hc as [Hk Ha]. apply String.eqb_eq in Hk.
  exists c. by rewrite list_elem_of_In.
Qed.

Lemma same_but_usage_refl (r : ApiKeyRow) : same_but_usage r r.
Proof. by repeat split. Qed.

Lemma only_reset_refl (rows : list ApiKeyRow) : only_reset rows rows.
Proof.
  unfold only_reset. induction rows as [|r rows IH]; constructor; [|done].
  split; [apply same_but_usage_refl | by left].
Qed.

Lemma only_reset_reset (key : string) (rows : list ApiKeyRow) :
  only_reset rows (reset_daily_usage key rows).
Proof.
  unfold only_reset, reset_daily_usage.
  induction rows as [|r rows IH]; simpl; constructor; [|done].
  destruct (String.eqb (api_key r) key); split;
    try apply same_but_usage_refl; try (by left); try (by right).
  by repeat split.
Qed.

Lemma check_rate_limit_rows (now_ : datetime) (key : string) (d : Database) :
  fst (check_rate_limit now_ key d) = d
  \/ api_keys (fst (check_rate_limit now_ key d)) = reset_daily_usage key (api_keys d).
Proof.
  unfold check_rate_limit.
  destruct (select_by_api_key key (api_keys d)) as [c|]; [|by left].
  destruct c as [i n e k rl du [lu|] ca act]; simpl; [|by left].
  destruct (date lu <? date now_); [by right | by left].
Qed.

Lemma check_rate_limit_no_reset (now_ : datetime) (key : string) (d : Database) :
  (forall c lu, select_by_api_key key (api_keys d) = Some c ->
                last_used c = Some lu -> date now_ <= date lu) ->
  fst (check_rate_limit now_ key d) = d.
Proof.
  intros H. unfold check_rate_limit.
  destruct (select_by_api_key key (api_keys d)) as [c|] eqn:Hc; [|done].
  specialize (H c).
  destruct c as [i n e k rl du [lu|] ca act]; simpl in *; [|done].
  specialize (H lu eq_refl eq_refl).
  assert ((date lu <? date now_) = false) as -> by (apply Z.ltb_ge; lia). done.
Qed.

Section Rows.

Context {PyVal : Type} (env : Env PyVal).

(** What the gate leaves in the table, and whose dictionary it returns. *)
Lemma gate_rows (request : Request) (w : World) :
  only_reset (api_keys (db w))
             (api_keys (db (fst (validate_and_check_rate_limit env request w))))
  /\ (forall user_info,
        snd (validate_and_check_rate_limit env request w) = Ok user_info ->
        exists c, c ∈ api_keys (db w) /\ user_info = user_info_of_row c).
Proof.
  unfold validate_and_check_rate_limit.
  destruct (get_client_key request) as [[|c0 key0]|];
    try (split; [apply only_reset_refl | done]).
  destruct w as [d calls]. unfold bind, with_db. cbn [db upstream_calls].
  destruct (validate_api_key d (String c0 key0)) as [ui|] eqn:Hv;
    [|split; [apply only_reset_refl | done]].
  cbn [db upstream_calls].
  pose proof (check_rate_limit_rows (now env) (String c0 key0) d) as Hrows.
  destruct (check_rate_limit (now env) (String c0 key0) d) as [d' v]. simpl in Hrows.
  assert (Hreset : only_reset (api_keys d) (api_keys d')).
  { destruct Hrows as [-> | ->]; [apply only_reset_refl | apply only_reset_reset]. }
  destruct v; simpl; (split; [done|]); [|done].
  intros user_info [= <-].
  destruct (validate_some_row _ _ _ Hv) as (c & Hin & -> & _). by exists c.
Qed.

Lemma add_usage_no_match (stamp : datetime) (key : string) (tokens : Z)
    (rows : list ApiKeyRow) :
  (forall r, r ∈ rows -> api_key r <> key) ->
  add_usage stamp key tokens rows = rows.
Proof.
  unfold add_usage. induction rows as [|r rows IH]; intros H; simpl; [done|].
  assert (String.eqb (api_key r) key = false) as ->.
  { apply String.eqb_neq. apply H, list_elem_of_here. }
  rewrite IH; [done|]. intros r' Hr'. apply H. by apply list_elem_of_further.
Qed.

Lemma only_reset_keys (rows rows' : list ApiKeyRow) (r' : ApiKeyRow) :
  only_reset rows rows' -> r' ∈ rows' ->
  exists r, r ∈ rows /\ api_key r' = api_key r.
Proof.
  unfold only_reset. induction 1 as [|r r1 rows rows' [Hsame _] _ IH]; intros Hin.
  - by apply not_elem_of_nil in Hin.
  - apply elem_of_cons in Hin as [->|Hin].
    + exists r. split; [apply list_elem_of_here|]. by destruct Hsame as (_ & _ & _ & ? & _).
    + destruct (IH Hin) as (r0 & Hr0 & Heq). exists r0.
      split; [by apply list_elem_of_further | done].
Qed.

(** Every handler leaves in [api_keys] what the gate left there, when no
    secret is also an id. *)
Lemma handlers_rows_as_gate (request : Request) (w : World) :
  ids_differ_from_keys (api_keys (db w)) ->
  api_keys (db (fst (get_models env request w)))
  = api_keys (db (fst (validate_and_check_rate_limit env request w)))
  /\ api_keys (db (fst (chat_completions env request w)))
     = api_keys (db (fst (validate_and_check_rate_limit env request w)))
  /\ api_keys (db (fst (completions env request w)))
     = api_keys (db (fst (validate_and_check_rate_limit env request w))).
Proof.
  intros Hids. split; [|split].
  - pose proof (gate_rows request w) as [Hreset Hrow].
    destruct (validate_and_check_rate_limit env request w) as [w1 [ui|e]] eqn:Hg.
    + rewrite (get_models_run env _ _ _ _ Hg). simpl in *.
      destruct (send env (models_call env)) as [response|e]; [|done].
      destruct (log_usage_fault env) as [e|]; [done|]. simpl.
      destruct (Hrow ui eq_refl) as (c & Hc & ->).
      apply add_usage_no_match. intros r1 Hr1.
      destruct (only_reset_keys _ _ _ Hreset Hr1) as (r & Hr & ->).
      simpl. by apply Hids.
    + unfold get_models, bind. by rewrite Hg.
  - unfold chat_completions. by rewrite completions_body_run.
  - unfold completions. by rewrite completions_body_run.
Qed.

End Rows.

(** X4.  No handler ever consumes quota: when no secret of the table is
    also the id of a row, [get_models], [chat_completions] and
    [completions] leave every row as it was except that [daily_usage] may
    have been reset to 0; rows are neither added nor removed, and no
    [daily_usage] is raised.  ([log_usage] is handed the id of the row but
    updates the rows whose secret equals it.) *)
Theorem handlers_never_raise_usage :
  forall (PyVal : Type) (env : Env PyVal) (request : Request) (w : World),
    ids_differ_from_keys (api_keys (db w)) ->
    only_reset (api_keys (db w)) (api_keys (db (fst (get_models env request w))))
    /\ only_reset (api_keys (db w)) (api_keys (db (fst (chat_completions env request w))))
    /\ only_reset (api_keys (db w)) (api_keys (db (fst (completions env request w)))).
Proof.
  intros PyVal env request w Hids.
  destruct (handlers_rows_as_gate env request w Hids) as (-> & -> & ->).
  pose proof (gate_rows env request w) as [Hreset _]. done.
Qed.

Lemma sample_ids_differ (usage : Z) (active : bool) :
  ids_differ_from_keys (api_keys (db (sample_world usage active))).
Proof.
  intros r r' Hr Hr'. simpl in *.
  apply list_elem_of_singleton in Hr as ->. apply list_elem_of_singleton in Hr' as ->.
  discriminate.
Qed.

Lemma handlers_never_raise_usage_witness :
  only_reset (api_keys (db (sample_world 1 true)))
    (api_keys (db (fst (get_models (sample_env 10 None) models_request
                          (sample_world 1 true))))).
Proof.
  apply (handlers_never_raise_usage string (sample_env 10 None) models_request
           (sample_world 1 true) (sample_ids_differ 1 true)).
Defined.

(** X5.  A table whose rows have never been used stays exactly as it is:
    when no row has a [last_used] value and no secret is also an id, the
    three handlers leave [api_keys] unchanged, so [last_used] stays NULL
    and no later request can trigger a reset. *)
Theorem unused_keys_stay_unused :
  forall (PyVal : Type) (env : Env PyVal) (request : Request) (w : World),
    ids_differ_from_keys (api_keys (db w)) ->
    (forall r, r ∈ api_keys (db w) -> last_used r = None) ->
    api_keys (db (fst (get_models env request w))) = api_keys (db w)
    /\ api_keys (db (fst (chat_completions env request w))) = api_keys (db w)
    /\ api_keys (db (fst (completions env request w))) = api_keys (db w).
Proof.
  intros PyVal env request w Hids Hnull.
  destruct (handlers_rows_as_gate env request w Hids) as (-> & -> & ->).
  assert (Hgate : api_keys (db (fst (validate_and_check_rate_limit env request w)))
                  = api_keys (db w)); [|done].
  unfold validate_and_check_rate_limit.
  destruct (get_client_key request) as [[|c0 key0]|]; try done.
  destruct w as [d calls]. unfold bind, with_db. cbn [db upstream_calls] in *.
  destruct (validate_api_key d (String c0 key0)) as [ui|]; [|done].
  cbn [db upstream_calls].
  assert (Hno : fst (check_rate_limit (now env) (String c0 key0) d) = d).
  { apply check_rate_limit_no_reset. intros c lu Hc Hlu.
    apply List.find_some in Hc as [Hin _]. apply list_elem_of_In in Hin.
    rewrite (Hnull c Hin) in Hlu. done. }
  destruct (check_rate_limit (now env) (String c0 key0) d) as [d' []];
    simpl in *; by subst.
Qed.

Lemma unused_keys_witness :
  api_keys (db (fst (get_models (sample_env 10 None) models_request fresh_world)))
  = api_keys (db fresh_world).
Proof.
  apply (unused_keys_stay_unused string (sample_env 10 None) models_request fresh_world).
  - intros r r' Hr Hr'. simpl in *.
    apply list_elem_of_singleton in Hr as ->. apply list_elem_of_singleton in Hr' as ->.
    discriminate.
  - intros r Hr. simpl in Hr. by apply list_elem_of_singleton in Hr as ->.
Defined.

(** X6.  A request that arrives no later than the day of the row's
    [last_used], or for a row whose [last_used] is NULL, is judged without
    any write: the gate returns the world it was given. *)
Theorem gate_reads_only_without_day_change :
  forall (PyVal : Type) (env : Env PyVal) (request : Request) (w : World) (key : string),
    get_client_key request = Some key ->
    (forall c lu, select_by_api_key key (api_keys (db w)) = Some c ->
                  last_used c = Some lu -> date (now env) <= date lu) ->
    fst (validate_and_check_rate_limit env request w) = w.
Proof.
  intros PyVal env request w key Hk Hday.
  unfold validate_and_check_rate_limit. rewrite Hk.
  destruct key as [|c0 key0]; [done|].
  destruct w as [d calls]. unfold bind, with_db. cbn [db upstream_calls] in *.
  destruct (validate_api_key d (String c0 key0)) as [ui|]; [|done].
  cbn [db upstream_calls].
  pose proof (check_rate_limit_no_reset (now env) (String c0 key0) d Hday) as Hno.
  destruct (check_rate_limit (now env) (String c0 key0) d) as [d' []];
    simpl in *; by subst.
Qed.

Lemma gate_reads_only_witness :
  fst (validate_and_check_rate_limit (sample_env 10 None) models_request
         (sample_world 2 true))
  = sample_world 2 true.
Proof.
  apply (gate_reads_only_without_day_change string (sample_env 10 None) models_request
           (sample_world 2 true) "vllm_abc" eq_refl).
  intros c lu [= <-] [= <-]. simpl. lia.
Defined.

(** *** The models route *)

(** X7.  [get_models] records the usage before it decodes the upstream
    body: when the gate and the upstream call succeed but the body is not
    JSON, the caller gets HTTP 500 and the call is nevertheless written to
    [usage_logs] (with cost 0). *)
Theorem undecodable_models_answer_is_still_logged :
  forall (PyVal : Type) (env : Env PyVal) (request : Request) (w w1 : World)
         (user_info : UserInfo) (response : Response) (e : exn),
    validate_and_check_rate_limit env request w = (w1, Ok user_info) ->
    send env (models_call env) = Ok response ->
    log_usage_fault env = None ->
    json_decode env (content response) = Raise e ->
    snd (get_models env request w)
    = Raise (HTTPException 500 ("Error connecting to vLLM: " ++ exn_str e))
    /\ usage_logs (db (fst (get_models env request w)))
       = (usage_logs (db w) ++
            [ {| api_key_id := ui_id user_info; endpoint := "/v1/models";
                 tokens_used := 0; timestamp := CURRENT_TIMESTAMP env |} ])%list.
Proof.
  intros PyVal env request w w1 user_info response e Hg Hsend Hfault Hjson.
  pose proof (gate_frame env request w) as [_ Hlogs]. rewrite Hg in Hlogs.
  rewrite (get_models_run env _ _ _ _ Hg), Hsend, Hfault, Hjson. simpl in *.
  by rewrite Hlogs.
Qed.

Lemma undecodable_models_answer_witness :
  snd (get_models env_not_json models_request (sample_world 0 true))
  = Raise (HTTPException 500
             "Error connecting to vLLM: Expecting value: line 1 column 1 (char 0)")
  /\ usage_logs (db (fst (get_models env_not_json models_request (sample_world 0 true))))
     = [ {| api_key_id := "7c0e6f0a"; endpoint := "/v1/models";
            tokens_used := 0; timestamp := day 10 |} ].
Proof.
  apply (undecodable_models_answer_is_still_logged
           string env_not_json models_request (sample_world 0 true) (sample_world 0 true)
           (user_info_of_row (sample_row 0 true))
           {| status_code := 200; content := "<html>" |}
           (RuntimeFailure "json.JSONDecodeError" "Expecting value: line 1 column 1 (char 0)")
           eq_refl eq_refl eq_refl eq_refl).
Defined.

(** X8.  When the upstream call of [get_models] fails, the caller gets
    HTTP 500 carrying the text of the failure; one call was attempted, it
    is not repeated, and nothing is written to the database after the
    gate. *)
Theorem models_upstream_failure_answers_500 :
  forall (PyVal : Type) (env : Env PyVal) (request : Request) (w w1 : World)
         (user_info : UserInfo) (e : exn),
    validate_and_check_rate_limit env request w = (w1, Ok user_info) ->
    send env (models_call env) = Raise e ->
    get_models env request w
    = ({| db := db w1; upstream_calls := (upstream_calls w ++ [models_call env])%list |},
       Raise (HTTPException 500 ("Error connecting to vLLM: " ++ exn_str e))).
Proof.
  intros PyVal env request w w1 user_info e Hg Hsend.
  pose proof (gate_frame env request w) as [Hcalls _]. rewrite Hg in Hcalls.
  rewrite (get_models_run env _ _ _ _ Hg), Hsend. simpl in *. by rewrite Hcalls.
Qed.

Lemma models_upstream_failure_witness :
  get_models env_unreachable models_request (sample_world 0 true)
  = ({| db := db (sample_world 0 true);
        upstream_calls := [models_call env_unreachable] |},
     Raise (HTTPException 500 "Error connecting to vLLM: All connection attempts failed")).
Proof.
  apply (models_upstream_failure_answers_500
           string env_unreachable models_request (sample_world 0 true) (sample_world 0 true)
           (user_info_of_row (sample_row 0 true))
           (RuntimeFailure "httpx.ConnectError" "All connection attempts failed")
           eq_refl eq_refl).
Defined.

(** *** Creating and deleting keys *)

Lemma existsb_false_forall {A : Type} (f : A -> bool) (l : list A) :
  existsb f l = false <-> forall x, x ∈ l -> f x = false.
Proof.
  induction l as [|a l IH]; simpl.
  - split; [intros _ x Hx; by apply not_elem_of_nil in Hx | done].
  - rewrite orb_false_iff, IH. split.
    + intros [Ha Hl] x Hx. apply elem_of_cons in Hx as [->|Hx]; auto.
    + intros H. split; [apply H, list_elem_of_here|].
      intros x Hx. apply H. by apply list_elem_of_further.
Qed.

(** The row that a creation inserts. *)
Lemma create_api_key_run (env : AdminEnv) (data : KeyData) (d : Database) :
  create_api_key env data d =
    match insert_api_key (created_stamp env) (uuid4 env)
            (default "Unnamed Key"%string (data_name data))
            (default EmptyString (data_email data))
            (generate_api_key env)
            (default 100 (data_rate_limit data)) (api_keys d) with
    | Raise e => (d, Raise e)
    | Ok rows =>
        ({| api_keys := rows; usage_logs := usage_logs d |},
         Ok {| created_id := uuid4 env;
               created_name := default "Unnamed Key"%string (data_name data);
               created_email := default EmptyString (data_email data);
               created_api_key := generate_api_key env;
               created_rate_limit := default 100 (data_rate_limit data);
               created_message := "API key created successfully" |})
    end.
Proof.
  unfold create_api_key, bind, get, lift, put, ret.
  by destruct (insert_api_key _ _ _ _ _ _ _).
Qed.

Lemma find_app_fresh {A : Type} (f : A -> bool) (l : list A) (x : A) :
  (forall y, y ∈ l -> f y = false) -> f x = true ->
  List.find f (l ++ [x]) = Some x.
Proof.
  induction l as [|a l IH]; simpl; intros Hl Hx; [by rewrite Hx|].
  rewrite (Hl a (list_elem_of_here _ _)). apply IH; [|done].
  intros y Hy. apply Hl. by apply list_elem_of_further.
Qed.

Lemma find_app_other {A : Type} (f : A -> bool) (l : list A) (x : A) :
  f x = false -> List.find f (l ++ [x]) = List.find f l.
Proof.
  intros Hx. induction l as [|a l IH]; simpl; [by rewrite Hx|].
  by destruct (f a).
Qed.

(** X9.  Round trip: a key that [create_api_key] has created validates
    at once under the secret that was returned, with the id, name, e-mail
    and limit of the answer and with [daily_usage] 0; the gate lets its
    first request through exactly when its [rate_limit] is positive, and
    writes nothing. *)
Theorem created_key_validates :
  forall (env : AdminEnv) (data : KeyData) (d d' : Database) (created : KeyCreated),
    create_api_key env data d = (d', Ok created) ->
    created_api_key created = ("vllm_" ++ token_urlsafe env)%string
    /\ validate_api_key d' (created_api_key created)
       = Some {| ui_id := created_id created;
                 ui_name := created_name created;
                 ui_email := created_email created;
                 ui_rate_limit := created_rate_limit created;
                 ui_daily_usage := 0 |}
    /\ (forall (PyVal : Type) (genv : Env PyVal) (request : Request)
               (calls : list UpstreamCall),
          get_client_key request = Some (created_api_key created) ->
          validate_and_check_rate_limit genv request {| db := d'; upstream_calls := calls |}
          = ({| db := d'; upstream_calls := calls |},
             if 0 <? created_rate_limit created
             then Ok {| ui_id := created_id created;
                        ui_name := created_name created;
                        ui_email := created_email created;
                        ui_rate_limit := created_rate_limit created;
                        ui_daily_usage := 0 |}
             else Raise (HTTPException 429 "Rate limit exceeded. Try again tomorrow."))).
Proof.
  intros env data d d' created. rewrite create_api_key_run.
  unfold insert_api_key.
  destruct (existsb _ (api_keys d) || existsb _ (api_keys d)) eqn:Hdup; [done|].
  intros [= <- <-]. apply orb_false_iff in Hdup as [_ Hkey].
  rewrite existsb_false_forall in Hkey.
  set (row := {| key_id := uuid4 env;
                 key_name := default "Unnamed Key"%string (data_name data);
                 email := default EmptyString (data_email data);
                 api_key := generate_api_key env;
                 rate_limit := default 100 (data_rate_limit data);
                 daily_usage := 0; last_used := None;
                 created_at := created_stamp env; is_active := true |}).
  assert (Hsel : select_by_api_key (generate_api_key env) (api_keys d ++ [row]) = Some row).
  { apply find_app_fresh; [done|]. simpl. apply String.eqb_refl. }
  split; [done|]. split.
  - unfold validate_api_key. cbn [api_keys created_api_key].
    by rewrite (select_active_of_select _ _ _ Hsel eq_refl).
  - intros PyVal genv request calls Hk. cbn [created_api_key] in *.
    rewrite (gate_active genv request _ (generate_api_key env) row Hk); try done.
    unfold check_rate_limit. cbn [db api_keys]. by rewrite Hsel.
Qed.

Lemma created_key_witness :
  validate_api_key
    (fst (create_api_key sample_admin_env sample_key_data sample_db))
    "vllm_Zm9vYmFy"
  = Some {| ui_id := "1b4e28ba"; ui_name := "bob"; ui_email := EmptyString;
            ui_rate_limit := 5; ui_daily_usage := 0 |}.
Proof.
  apply (created_key_validates sample_admin_env sample_key_data sample_db
           (fst (create_api_key sample_admin_env sample_key_data sample_db))
           {| created_id := "1b4e28ba"; created_name := "bob";
              created_email := EmptyString; created_api_key := "vllm_Zm9vYmFy";
              created_rate_limit := 5;
              created_message := "API key created successfully" |}
           eq_refl).
Defined.

(** X10.  A successful creation appends one row and leaves everything
    else alone: the rows already present and the usage log are unchanged,
    every other secret validates as before, no two rows share a secret
    afterwards if none did before, and the counters stay non-negative. *)
Theorem creation_keeps_the_store :
  forall (env : AdminEnv) (data : KeyData) (d d' : Database) (created : KeyCreated),
    create_api_key env data d = (d', Ok created) ->
    (exists row, api_keys d' = (api_keys d ++ [row])%list
                 /\ key_id row = created_id created
                 /\ api_key row = created_api_key created
                 /\ daily_usage row = 0 /\ last_used row = None /\ is_active row = true)
    /\ usage_logs d' = usage_logs d
    /\ (forall key, key <> created_api_key created ->
                    validate_api_key d' key = validate_api_key d key)
    /\ (unique_api_keys (api_keys d) -> unique_api_keys (api_keys d'))
    /\ (nonneg_usage (api_keys d) -> nonneg_usage (api_keys d')).
Proof.
  intros env data d d' created. rewrite create_api_key_run.
  unfold insert_api_key.
  destruct (existsb _ (api_keys d) || existsb _ (api_keys d)) eqn:Hdup; [done|].
  intros [= <- <-]. apply orb_false_iff in Hdup as [_ Hkey].
  rewrite existsb_false_forall in Hkey. cbn [api_keys usage_logs created_api_key created_id].
  split; [by eexists|]. split; [done|]. split; [|split].
  - intros key Hne. unfold validate_api_key, select_active_by_api_key. cbn [api_keys].
    rewrite find_app_other; [done|]. cbn [api_key is_active].
    assert (String.eqb (generate_api_key env) key = false) as ->; [|done].
    apply String.eqb_neq. congruence.
  - unfold unique_api_keys. rewrite List.map_app. simpl. intros Hnd.
    apply NoDup_app. split; [done|]. split; [|apply NoDup_singleton].
    intros k Hk Hk'. apply list_elem_of_singleton in Hk' as ->.
    apply list_elem_of_In, List.in_map_iff in Hk as (r & Hr & Hin).
    apply list_elem_of_In in Hin. specialize (Hkey r Hin). simpl in Hkey.
    apply String.eqb_neq in Hkey. done.
  - unfold nonneg_usage. intros Hnn. apply Forall_app. split; [done|].
    by apply Forall_singleton.
Qed.

Lemma creation_keeps_the_store_witness :
  usage_logs (fst (create_api_key sample_admin_env sample_key_data sample_db))
  = usage_logs sample_db.
Proof.
  apply (creation_keeps_the_store sample_admin_env sample_key_data sample_db
           (fst (create_api_key sample_admin_env sample_key_data sample_db))
           {| created_id := "1b4e28ba"; created_name := "bob";
              created_email := EmptyString; created_api_key := "vllm_Zm9vYmFy";
              created_rate_limit := 5;
              created_message := "API key created successfully" |}
           eq_refl).
Defined.



(** [DELETE] finds nothing exactly when the count of rows is unchanged. *)
Lemma filter_length_eq {A : Type} (f : A -> bool) (l : list A) :
  (List.length l - List.length (List.filter f l) = 0)%nat
  <-> forall x, x ∈ l -> f x = true.
Proof.
  pose proof (List.filter_length_le f) as Hle.
  induction l as [|a l IH]; simpl.
  - split; [intros _ x Hx; by apply not_elem_of_nil in Hx | done].
  - specialize (Hle l) as Hl. destruct (f a) eqn:Ha; simpl.
    + rewrite IH. split.
      * intros H x Hx. apply elem_of_cons in Hx as [->|Hx]; auto.
      * intros H x Hx. apply H. by apply list_elem_of_further.
    + split; [lia|]. intros H. specialize (H a (list_elem_of_here _ _)). congruence.
Qed.

Lemma delete_api_key_run (key_id_ : string) (d : Database) :
  delete_api_key key_id_ d =
    if existsb (fun r => String.eqb (key_id r) key_id_) (api_keys d)
    then ({| api_keys := List.filter (fun r => negb (String.eqb (key_id r) key_id_))
                           (api_keys d);
             usage_logs := usage_logs d |},
          Ok "API key deleted successfully"%string)
    else (d, Raise (HTTPException 404 "API key not found")).
Proof.
  unfold delete_api_key, bind, get, put, ret, raise.
  destruct (Nat.eqb _ O) eqn:Hcount.
  - apply Nat.eqb_eq in Hcount.
    pose proof (proj1 (filter_length_eq _ _) Hcount) as Hall.
    assert (existsb (fun r => String.eqb (key_id r) key_id_) (api_keys d) = false) as ->;
      [|done].
    apply existsb_false_forall. intros r Hin. specialize (Hall r Hin).
    by apply negb_true_iff in Hall.
  - destruct (existsb _ (api_keys d)) eqn:Hex; [done|].
    apply Nat.eqb_neq in Hcount. exfalso. apply Hcount.
    apply (proj2 (filter_length_eq _ _)).
    intros r Hin. rewrite existsb_false_forall in Hex. by rewrite (Hex r Hin).
Qed.

Lemma existsb_key_id (key_id_ : string) (rows : list ApiKeyRow) :
  existsb (fun r => String.eqb (key_id r) key_id_) rows = true
  <-> exists r, r ∈ rows /\ key_id r = key_id_.
Proof.
  rewrite List.existsb_exists. split; intros (r & Hin & Hid); exists r.
  - apply String.eqb_eq in Hid. by rewrite list_elem_of_In.
  - apply String.eqb_eq in Hid. by rewrite <- list_elem_of_In.
Qed.

(** X12.  [delete_api_key] answers 404 exactly when no row has the given
    id, and then changes nothing; otherwise it succeeds. *)
Theorem deletion_answers_404_for_unknown_id_only :
  forall (key_id_ : string) (d : Database),
    ((forall r, r ∈ api_keys d -> key_id r <> key_id_)
     -> delete_api_key key_id_ d = (d, Raise (HTTPException 404 "API key not found")))
    /\ ((exists r, r ∈ api_keys d /\ key_id r = key_id_)
        -> snd (delete_api_key key_id_ d) = Ok "API key deleted successfully"%string).
Proof.
  intros key_id_ d. rewrite delete_api_key_run. split.
  - intros Hno.
    destruct (existsb _ (api_keys d)) eqn:Hex; [|done].
    apply existsb_key_id in Hex as (r & Hin & Hid). by destruct (Hno r Hin).
  - intros Hex. apply existsb_key_id in Hex. by rewrite Hex.
Qed.

Lemma deletion_404_witness :
  delete_api_key "no-such-id" sample_db
  = (sample_db, Raise (HTTPException 404 "API key not found")).
Proof.
  apply (proj1 (deletion_answers_404_for_unknown_id_only "no-such-id" sample_db)).
  intros r Hr. simpl in Hr. apply list_elem_of_singleton in Hr as ->. discriminate.
Defined.

(** X13.  A successful deletion removes the rows with the given id and
    nothing else: the other rows stay, in their order, the usage log is
    kept, and (secrets being unique) the secret of a deleted row no longer
    validates, so the gate answers it with 401. *)
Theorem deletion_revokes_the_key :
  forall (key_id_ : string) (d d' : Database) (answer : string),
    delete_api_key key_id_ d = (d', Ok answer) ->
    api_keys d'
    = List.filter (fun r => negb (String.eqb (key_id r) key_id_)) (api_keys d)
    /\ (forall r, r ∈ api_keys d' <-> r ∈ api_keys d /\ key_id r <> key_id_)
    /\ usage_logs d' = usage_logs d
    /\ (unique_api_keys (api_keys d) ->
        forall r, r ∈ api_keys d -> key_id r = key_id_ ->
                  validate_api_key d' (api_key r) = None
                  /\ forall (PyVal : Type) (genv : Env PyVal) (request : Request)
                            (calls : list UpstreamCall),
                       get_client_key request = Some (api_key r) ->
                       exists detail,
                         validate_and_check_rate_limit genv request
                           {| db := d'; upstream_calls := calls |}
                         = ({| db := d'; upstream_calls := calls |},
                            Raise (HTTPException 401 detail))).
Proof.
  intros key_id_ d d' answer. rewrite delete_api_key_run.
  destruct (existsb _ (api_keys d)); [|done]. intros [= <- _]. cbn [api_keys usage_logs].
  assert (Hmem : forall r,
             r ∈ List.filter (fun r => negb (String.eqb (key_id r) key_id_)) (api_keys d)
             <-> r ∈ api_keys d /\ key_id r <> key_id_).
  { intros r. rewrite !list_elem_of_In, List.filter_In, negb_true_iff, String.eqb_neq.
    done. }
  split; [done|]. split; [done|]. split; [done|].
  intros Huniq r Hin Hid.
  assert (Hnone : validate_api_key
            {| api_keys := List.filter (fun r => negb (String.eqb (key_id r) key_id_))
                             (api_keys d);
               usage_logs := usage_logs d |} (api_key r) = None).
  { unfold validate_api_key. cbn [api_keys].
    rewrite select_active_none; [done|].
    intros r' Hr' Hkey. apply Hmem in Hr' as [Hr' Hne].
    rewrite (unique_key_rows_agree _ _ _ Huniq Hr' Hin Hkey) in Hne. done. }
  split; [done|].
  intros PyVal genv request calls Hk.
  destruct (api_key r) as [|c0 key0] eqn:Hkey.
  - eexists. unfold validate_and_check_rate_limit. by rewrite Hk.
  - eexists. rewrite (gate_unfold genv _ _ _ _ Hk). cbn [db]. by rewrite Hnone.
Qed.

Lemma deletion_revokes_witness :
  api_keys (fst (delete_api_key "7c0e6f0a" sample_db)) = [].
Proof.
  apply (deletion_revokes_the_key "7c0e6f0a" sample_db
           (fst (delete_api_key "7c0e6f0a" sample_db))
           "API key deleted successfully" eq_refl).
Defined.

(** X14.  Deleting a key right after it was created gives back the
    database as it was before the creation. *)
Theorem deletion_undoes_creation :
  forall (env : AdminEnv) (data : KeyData) (d d' : Database) (created : KeyCreated),
    create_api_key env data d = (d', Ok created) ->
    delete_api_key (created_id created) d' = (d, Ok "API key deleted successfully"%string).
Proof.
  intros env data d d' created. rewrite create_api_key_run.
  unfold insert_api_key.
  destruct (existsb _ (api_keys d) || existsb _ (api_keys d)) eqn:Hdup; [done|].
  intros [= <- <-]. apply orb_false_iff in Hdup as [Hid _].
  rewrite existsb_false_forall in Hid. cbn [created_id].
  rewrite delete_api_key_run. cbn [api_keys usage_logs].
  assert (existsb (fun r => String.eqb (key_id r) (uuid4 env))
            (api_keys d ++
               [ {| key_id := uuid4 env;
                    key_name := default "Unnamed Key"%string (data_name data);
                    email := default EmptyString (data_email data);
                    api_key := generate_api_key env;
                    rate_limit := default 100 (data_rate_limit data);
                    daily_usage := 0; last_used := None;
                    created_at := created_stamp env; is_active := true |} ])%list
          = true) as ->.
  - apply existsb_key_id. eexists.
    split; [apply elem_of_app; right; apply list_elem_of_here|done].
  - rewrite List.filter_app. simpl. rewrite String.eqb_refl. simpl.
    rewrite app_nil_r.
    assert (List.filter (fun r => negb (String.eqb (key_id r) (uuid4 env))) (api_keys d)
            = api_keys d) as ->; [|by destruct d].
    apply List.forallb_filter_id, List.forallb_forall. intros r Hr.
    apply list_elem_of_In in Hr. by rewrite (Hid r Hr).
Qed.

Lemma deletion_undoes_creation_witness :
  delete_api_key "1b4e28ba" (fst (create_api_key sample_admin_env sample_key_data sample_db))
  = (sample_db, Ok "API key deleted successfully"%string).
Proof.
  apply (deletion_undoes_creation sample_admin_env sample_key_data sample_db
           (fst (create_api_key sample_admin_env sample_key_data sample_db))
           {| created_id := "1b4e28ba"; created_name := "bob";
              created_email := EmptyString; created_api_key := "vllm_Zm9vYmFy";
              created_rate_limit := 5;
              created_message := "API key created successfully" |}
           eq_refl).
Defined.

End GatewayMore.

(** ** Further properties of load_balancer.py *)

Module BalancerMore.

Import Balancer BalancerStatus BalancerFacts.
Local Open Scope list_scope.
Local Open Scope Z_scope.

(** *** The forwarded headers *)

Lemma headers_get_cons (k v : string) (h : list (string * string)) (name : string) :
  headers_get ((k, v) :: h) name
  = if String.eqb k name then Some v else headers_get h name.
Proof. unfold headers_get. simpl. by destruct (String.eqb k name). Qed.

Lemma headers_get_dict_of_headers (h : list (string * string)) :
  forall (seen : list string) (name : string),
    headers_get (dict_of_headers seen h) name
    = if existsb (String.eqb name) seen then None else headers_get h name.
Proof.
  induction h as [|[k v] h IH]; intros seen name.
  - simpl. by destruct (existsb _ seen).
  - simpl. destruct (existsb (String.eqb k) seen) eqn:Hk.
    + rewrite IH, headers_get_cons.
      destruct (existsb (String.eqb name) seen) eqn:Hn; [done|].
      destruct (String.eqb k name) eqn:Hkn; [|done].
      apply String.eqb_eq in Hkn as ->. congruence.
    + rewrite !headers_get_cons, IH. simpl.
      destruct (String.eqb k name) eqn:Hkn.
      * apply String.eqb_eq in Hkn as ->. by rewrite Hk.
      * rewrite String.eqb_sym, Hkn. done.
Qed.

Lemma headers_get_dict_pop (popped : string) (d : list (string * string)) (name : string) :
  headers_get (dict_pop popped d) name
  = if String.eqb name popped then None else headers_get d name.
Proof.
  unfold dict_pop. induction d as [|[k v] d IH]; simpl.
  - by destruct (String.eqb name popped).
  - destruct (String.eqb k popped) eqn:Hk; simpl.
    + rewrite IH, headers_get_cons.
      destruct (String.eqb name popped) eqn:Hn; [done|].
      destruct (String.eqb k name) eqn:Hkn; [|done].
      apply String.eqb_eq in Hkn as ->. congruence.
    + rewrite !headers_get_cons, IH.
      destruct (String.eqb k name) eqn:Hkn; [|done].
      apply String.eqb_eq in Hkn as ->. by rewrite Hk.
Qed.

Lemma dict_of_headers_names (h : list (string * string)) :
  forall seen,
    NoDup (List.map fst (dict_of_headers seen h))
    /\ forall k, k ∈ List.map fst (dict_of_headers seen h) ->
                 existsb (String.eqb k) seen = false.
Proof.
  induction h as [|[k v] h IH]; intros seen; simpl.
  - split; [constructor | intros k Hk; by apply not_elem_of_nil in Hk].
  - destruct (existsb (String.eqb k) seen) eqn:Hk; [apply IH|].
    destruct (IH (k :: seen)) as [Hnd Hout]. simpl. split.
    + constructor; [|done]. intros Hin. specialize (Hout k Hin). simpl in Hout.
      by rewrite String.eqb_refl in Hout.
    + intros k' Hk'. apply elem_of_cons in Hk' as [->|Hk']; [done|].
      specialize (Hout k' Hk'). simpl in Hout. by apply orb_false_iff in Hout as [_ ?].
Qed.

(** X15.  The call that the balancer forwards carries the inbound
    headers without [host]: looking up any other name gives what the
    inbound request gives (its first value), [host] is absent, and no name
    occurs twice. *)
Theorem forwarded_headers_drop_host_only :
  forall (request : Request) (gateway path : string),
    (forall name,
       headers_get (call_headers (forwarded_call request gateway path)) name
       = if String.eqb name "host" then None else headers_get (headers request) name)
    /\ NoDup (List.map fst (call_headers (forwarded_call request gateway path))).
Proof.
  intros request gateway path. cbn [forwarded_call call_headers]. split.
  - intros name. by rewrite headers_get_dict_pop, headers_get_dict_of_headers.
  - destruct (dict_of_headers_names (headers request) []) as [Hnd _].
    unfold dict_pop. revert Hnd.
    generalize (dict_of_headers [] (headers request)) as d.
    induction d as [|[k v] d IH]; simpl; intros Hnd; [constructor|].
    apply NoDup_cons in Hnd as [Hnot Hnd].
    destruct (String.eqb k "host"); simpl; [by apply IH|].
    constructor; [|by apply IH].
    intros Hin. apply Hnot.
    apply list_elem_of_In, List.in_map_iff in Hin as ([k' v'] & Hk' & Hin).
    apply List.filter_In in Hin as [Hin _]. simpl in Hk'. subst k'.
    apply list_elem_of_In, List.in_map_iff. by exists (k, v').
Qed.

(** *** Selection under every strategy *)

Lemma min_scan_elem (counts : gmap string Z) (l : list string) :
  forall (best : string) (best_key : Z) (sel : string),
    min_scan counts best best_key l = Ok sel -> sel = best \/ sel ∈ l.
Proof.
  induction l as [|g l IH]; intros best best_key sel; simpl.
  - intros [= ->]. by left.
  - destruct (dict_get counts g) as [k|e]; [|done].
    destruct (k <? best_key); intros Hscan; apply IH in Hscan as [->|Hin].
    + right. apply list_elem_of_here.
    + right. by apply list_elem_of_further.
    + by left.
    + right. by apply list_elem_of_further.
Qed.

Lemma min_by_request_count_elem (counts : gmap string Z) (l : list string) (sel : string) :
  min_by_request_count counts l = Ok sel -> sel ∈ l.
Proof.
  destruct l as [|g l]; simpl; [done|].
  destruct (dict_get counts g) as [k|e]; [|done].
  intros Hscan. apply min_scan_elem in Hscan as [->|Hin].
  - apply list_elem_of_here.
  - by apply list_elem_of_further.
Qed.

(** How [select_gateway] runs once the healthy gateways are known. *)
Lemma select_gateway_run (r : nat) (strategy : option string) (self : LoadBalancer)
    (healthy : list string) :
  get_healthy_gateways self = Ok healthy ->
  healthy <> [] ->
  select_gateway r strategy self
  = if String.eqb (default "round_robin"%string strategy) "random"
    then (self, random_choice r healthy)
    else select_min_and_count healthy self.
Proof.
  intros Hh Hne. unfold select_gateway, bind at 1, get. unfold bind at 1, lift.
  rewrite Hh. destruct healthy as [|g healthy]; [done|].
  destruct (String.eqb (default "round_robin"%string strategy) "round_robin") eqn:Hrr.
  - apply String.eqb_eq in Hrr as ->. done.
  - destruct (String.eqb (default "round_robin"%string strategy) "random"); [done|].
    by destruct (String.eqb (default "round_robin"%string strategy) "least_connections").
Qed.

Lemma select_gateway_none (r : nat) (strategy : option string) (self : LoadBalancer) :
  get_healthy_gateways self = Ok [] ->
  select_gateway r strategy self
  = (self, Raise (HTTPException 503 "No healthy gateways available")).
Proof.
  intros Hh. unfold select_gateway, bind at 1, get. unfold bind at 1, lift.
  by rewrite Hh.
Qed.

Lemma random_choice_elem (r : nat) (l : list string) :
  l <> [] -> exists g, random_choice r l = Ok g /\ g ∈ l.
Proof.
  intros Hne. unfold random_choice.
  assert (Hlt : (Nat.modulo r (List.length l) < List.length l)%nat).
  { apply Nat.mod_upper_bound. by destruct l. }
  destruct (lookup_lt_is_Some_2 l _ Hlt) as [g Hg].
  rewrite Hg. exists g. split; [done|]. by apply list_elem_of_lookup_2 in Hg.
Qed.

(** X16.  Whatever the strategy, a gateway that [select_gateway] returns
    is registered and is marked healthy. *)
Theorem selected_gateway_is_healthy :
  forall (r : nat) (strategy : option string) (self self' : LoadBalancer) (g : string),
    select_gateway r strategy self = (self', Ok g) ->
    g ∈ gateways self /\ health_status self !! g = Some true.
Proof.
  intros r strategy self self' g Hsel.
  destruct (get_healthy_gateways self) as [healthy|e] eqn:Hh.
  - assert (Hin : g ∈ healthy).
    { destruct (decide (healthy = [])) as [->|Hne].
      - by rewrite (select_gateway_none r strategy self Hh) in Hsel.
      - rewrite (select_gateway_run r strategy self healthy Hh Hne) in Hsel.
        destruct (String.eqb _ "random").
        + injection Hsel as _ Hchoice. unfold random_choice in Hchoice.
          destruct (healthy !! _) as [g'|] eqn:Hg'; [|done].
          injection Hchoice as <-. by apply list_elem_of_lookup_2 in Hg'.
        + unfold select_min_and_count, bind, get, lift in Hsel.
          destruct (min_by_request_count (request_counts self) healthy) as [sel|e] eqn:Hmin;
            [|done].
          apply min_by_request_count_elem in Hmin.
          unfold put, ret in Hsel.
          destruct (dict_get (request_counts self) sel); [|done].
          by injection Hsel as _ <-. }
    by apply (healthy_of_elem _ _ _ _ Hh).
  - unfold select_gateway, bind, get, lift in Hsel. by rewrite Hh in Hsel.
Qed.

Lemma selected_gateway_witness :
  "http://localhost:8002"%string ∈ gateways sample_lb
  /\ health_status sample_lb !! "http://localhost:8002"%string = Some true.
Proof.
  apply (selected_gateway_is_healthy O (Some "round_robin"%string) sample_lb
           (fst (select_gateway O (Some "round_robin"%string) sample_lb))
           "http://localhost:8002").
  vm_compute. reflexivity.
Defined.

(** X17.  The strategy ["random"] returns one of the healthy gateways
    whenever there is one, and changes nothing in the balancer: no request
    count moves. *)
Theorem random_strategy_does_not_count :
  forall (r : nat) (self : LoadBalancer) (healthy : list string),
    get_healthy_gateways self = Ok healthy ->
    healthy <> [] ->
    exists g, select_gateway r (Some "random"%string) self = (self, Ok g)
              /\ g ∈ healthy.
Proof.
  intros r self healthy Hh Hne.
  rewrite (select_gateway_run r _ self healthy Hh Hne). simpl.
  destruct (random_choice_elem r healthy Hne) as (g & -> & Hin). by exists g.
Qed.

Lemma random_strategy_witness :
  exists g, select_gateway 4 (Some "random"%string) sample_lb = (sample_lb, Ok g)
            /\ g ∈ gateways sample_lb.
Proof.
  apply (random_strategy_does_not_count 4 sample_lb (gateways sample_lb)).
  - vm_compute. reflexivity.
  - discriminate.
Defined.

(** *** The health refresh, gateway by gateway *)

Section RefreshEffect.

Variable env : Env.

Lemma probe_due_same (self self' : LoadBalancer) (t : Z) (g : string) :
  last_health_check self' !! g = last_health_check self !! g ->
  health_check_interval self' = health_check_interval self ->
  probe_due self' t g = probe_due self t g.
Proof. unfold probe_due. by intros -> ->. Qed.

Lemma for_each_update_effect (t : Z) (l : list string) :
  forall w,
    NoDup l ->
    (forall g, g ∈ l -> is_Some (last_health_check (lb w) !! g)) ->
    let w' := fst (for_each l (update_gateway env t) w) in
    (forall g, health_status (lb w') !! g = refreshed_health env (lb w) t l g)
    /\ (forall g, last_health_check (lb w') !! g = refreshed_stamp (lb w) t l g)
    /\ health_check_interval (lb w') = health_check_interval (lb w)
    /\ probe_calls w'
       = probe_calls w
         ++ List.map (fun g => (g ++ "/health")%string)
              (List.filter (probe_due (lb w) t) l).
Proof.
  induction l as [|g0 l IH]; intros w Hnd Hdef.
  - simpl. unfold refreshed_health, refreshed_stamp.
    repeat split; try done. by rewrite app_nil_r.
  - apply NoDup_cons in Hnd as [Hnot Hnd].
    destruct (Hdef g0 (list_elem_of_here _ _)) as [last Hlast].
    pose proof (update_gateway_run env t g0 w last Hlast) as Hrun.
    pose proof (update_gateway_frame env t g0 w) as (_ & _ & _ & Hkeep & _).
    cbn [for_each]. unfold bind.
    destruct (update_gateway env t g0 w) as [w1 r1]. injection Hrun as Hw1 ->.
    cbn zeta. cbn [fst] in Hkeep.
    destruct (IH w1 Hnd) as (Hh & Hs & Hi & Hp).
    { intros g Hg. apply Hkeep, Hdef. by apply list_elem_of_further. }
    assert (Hdue0 : probe_due (lb w) t g0 = (t - last >? health_check_interval (lb w))).
    { unfold probe_due. by rewrite Hlast. }
    (* the state of the other gateways after the first turn *)
    assert (Hother : forall g, g <> g0 ->
              health_status (lb w1) !! g = health_status (lb w) !! g
              /\ last_health_check (lb w1) !! g = last_health_check (lb w) !! g).
    { intros g Hne. subst w1.
      destruct (t - last >? health_check_interval (lb w)); [|done].
      simpl. by rewrite !lookup_insert_ne. }
    assert (Hint : health_check_interval (lb w1) = health_check_interval (lb w)).
    { subst w1. by destruct (t - last >? health_check_interval (lb w)). }
    assert (Hdue : forall g, g ∈ l -> probe_due (lb w1) t g = probe_due (lb w) t g).
    { intros g Hg. apply probe_due_same; [|done].
      apply Hother. intros ->. done. }
    split; [|split; [|split]].
    + intros g. rewrite Hh. unfold refreshed_health.
      destruct (decide (g = g0)) as [->|Hne].
      * rewrite (bool_decide_eq_false_2 (g0 ∈ l)) by done.
        rewrite (bool_decide_eq_true_2 (g0 ∈ g0 :: l)) by apply list_elem_of_here.
        simpl. rewrite Hdue0. subst w1.
        destruct (t - last >? health_check_interval (lb w)); [|done].
        simpl. by rewrite lookup_insert_eq.
      * destruct (Hother g Hne) as [-> _].
        destruct (decide (g ∈ l)) as [Hin|Hout].
        -- rewrite (bool_decide_eq_true_2 (g ∈ l)) by done.
           rewrite (bool_decide_eq_true_2 (g ∈ g0 :: l)) by (by apply list_elem_of_further).
           by rewrite (Hdue g Hin).
        -- rewrite (bool_decide_eq_false_2 (g ∈ l)) by done.
           rewrite (bool_decide_eq_false_2 (g ∈ g0 :: l)); [done|].
           intros Hin. apply elem_of_cons in Hin as [?|?]; done.
    + intros g. rewrite Hs. unfold refreshed_stamp.
      destruct (decide (g = g0)) as [->|Hne].
      * rewrite (bool_decide_eq_false_2 (g0 ∈ l)) by done.
        rewrite (bool_decide_eq_true_2 (g0 ∈ g0 :: l)) by apply list_elem_of_here.
        simpl. rewrite Hdue0. subst w1.
        destruct (t - last >? health_check_interval (lb w)); [|done].
        simpl. by rewrite lookup_insert_eq.
      * destruct (Hother g Hne) as [_ ->].
        destruct (decide (g ∈ l)) as [Hin|Hout].
        -- rewrite (bool_decide_eq_true_2 (g ∈ l)) by done.
           rewrite (bool_decide_eq_true_2 (g ∈ g0 :: l)) by (by apply list_elem_of_further).
           by rewrite (Hdue g Hin).
        -- rewrite (bool_decide_eq_false_2 (g ∈ l)) by done.
           rewrite (bool_decide_eq_false_2 (g ∈ g0 :: l)); [done|].
           intros Hin. apply elem_of_cons in Hin as [?|?]; done.
    + by rewrite Hi.
    + rewrite Hp. simpl. rewrite Hdue0.
      assert (List.filter (probe_due (lb w1) t) l = List.filter (probe_due (lb w) t) l) as ->.
      { apply List.filter_ext_in. intros g Hg. apply Hdue. by apply list_elem_of_In. }
      subst w1. destruct (t - last >? health_check_interval (lb w)); [|done].
      simpl. by rewrite <- app_assoc.
Qed.

End RefreshEffect.

(** X18.  [update_health_status] probes exactly the gateways whose last
    check is more than [health_check_interval] old, once each and in
    registration order; for those it stores the verdict of the probe and
    the current time, and it leaves the mark and the time stamp of every
    other gateway as they were (so the time stamp moves only when a probe
    has run). *)
Theorem refresh_probes_only_due_gateways :
  forall (env : Env) (w : World),
    lb_wf (lb w) ->
    NoDup (gateways (lb w)) ->
    let w' := fst (update_health_status env w) in
    probe_calls w'
    = probe_calls w
      ++ List.map (fun g => (g ++ "/health")%string)
           (List.filter (probe_due (lb w) (time_now env)) (gateways (lb w)))
    /\ forall g,
         g ∈ gateways (lb w) ->
         if probe_due (lb w) (time_now env) g
         then health_status (lb w') !! g = Some (probe_verdict env g)
              /\ last_health_check (lb w') !! g = Some (time_now env)
         else health_status (lb w') !! g = health_status (lb w) !! g
              /\ last_health_check (lb w') !! g = last_health_check (lb w) !! g.
Proof.
  intros env w Hwf Hnd. cbn zeta. rewrite update_health_status_unfold.
  destruct (for_each_update_effect env (time_now env) (gateways (lb w)) w Hnd)
    as (Hh & Hs & _ & Hp).
  { intros g Hg. unfold lb_wf in Hwf. rewrite Forall_forall in Hwf.
    by destruct (Hwf g Hg) as (_ & _ & ?). }
  split; [done|]. intros g Hg. rewrite Hh, Hs.
  unfold refreshed_health, refreshed_stamp.
  rewrite (bool_decide_eq_true_2 _ Hg). simpl.
  by destruct (probe_due (lb w) (time_now env) g).
Qed.

Lemma sample_world_checked_wf : lb_wf (lb sample_world_checked).
Proof. repeat constructor; vm_compute; eauto. Qed.

Lemma sample_gateways_nodup : NoDup (gateways (lb sample_world_checked)).
Proof.
  repeat (constructor; [intros Hin; repeat (apply elem_of_cons in Hin as [Hin|Hin];
    [discriminate|]); by apply not_elem_of_nil in Hin|]).
  constructor.
Qed.

Lemma refresh_witness :
  probe_calls (fst (update_health_status env_all_down sample_world_checked))
  = probe_calls sample_world_checked
    ++ List.map (fun g => (g ++ "/health")%string)
         (List.filter (probe_due (lb sample_world_checked) (time_now env_all_down))
            (gateways (lb sample_world_checked))).
Proof.
  apply (refresh_probes_only_due_gateways env_all_down sample_world_checked
           sample_world_checked_wf sample_gateways_nodup).
Defined.

(** Five seconds after the last checks no probe is sent and the marks
    stay, whatever the gateways would answer. *)
Example refresh_within_interval_is_silent :
  update_health_status env_all_down sample_world_checked = (sample_world_checked, Ok tt).
Proof. vm_compute. reflexivity. Qed.

(** *** Routing a request *)

Lemma lb_wf_transfer (self self' : LoadBalancer) :
  lb_wf self ->
  gateways self' = gateways self ->
  (forall g, is_Some (health_status self !! g) -> is_Some (health_status self' !! g)) ->
  (forall g, is_Some (request_counts self !! g) -> is_Some (request_counts self' !! g)) ->
  (forall g, is_Some (last_health_check self !! g) ->
             is_Some (last_health_check self' !! g)) ->
  lb_wf self'.
Proof.
  unfold lb_wf. intros Hwf -> Hh Hc Hl. eapply Forall_impl; [exact Hwf|].
  intros g (? & ? & ?). auto.
Qed.

Lemma refresh_keeps_wf (env : Env) (w : World) :
  lb_wf (lb w) -> lb_wf (lb (fst (update_health_status env w))).
Proof.
  intros Hwf.
  destruct (update_health_status_frame env w) as (_ & Hc & Hg & Hl & Hh).
  apply (lb_wf_transfer (lb w)); try done. by rewrite Hc.
Qed.

(** [select_gateway] touches nothing but the request counts, and removes
    no key from them. *)
Lemma select_gateway_frame (r : nat) (strategy : option string) (self : LoadBalancer) :
  gateways (fst (select_gateway r strategy self)) = gateways self
  /\ health_status (fst (select_gateway r strategy self)) = health_status self
  /\ last_health_check (fst (select_gateway r strategy self)) = last_health_check self
  /\ health_check_interval (fst (select_gateway r strategy self))
     = health_check_interval self
  /\ forall g, is_Some (request_counts self !! g) ->
               is_Some (request_counts (fst (select_gateway r strategy self)) !! g).
Proof.
  destruct (get_healthy_gateways self) as [healthy|e] eqn:Hh.
  - destruct (decide (healthy = [])) as [->|Hne].
    + by rewrite (select_gateway_none r strategy self Hh).
    + rewrite (select_gateway_run r strategy self healthy Hh Hne).
      destruct (String.eqb _ "random"); [done|].
      unfold select_min_and_count, bind, get, lift, put, ret.
      destruct (min_by_request_count (request_counts self) healthy) as [sel|e1]; [|done].
      destruct (dict_get (request_counts self) sel) as [c|e2]; [|done].
      simpl. repeat split; try done.
      intros g Hg. apply lookup_insert_is_Some. destruct (decide (sel = g)); auto.
  - unfold select_gateway, bind, get, lift. by rewrite Hh.
Qed.

Lemma proxy_request_lb (env : Env) (request : Request) (gateway path : string) (w : World) :
  lb (fst (proxy_request env request gateway path w)) = lb w.
Proof.
  unfold proxy_request, try_except, bind, client_request, ret, raise.
  by destruct (send env (forwarded_call request gateway path)).
Qed.

(** A request for which a healthy gateway exists. *)
Lemma proxy_all_routed (env : Env) (request : Request) (path : string) (w : World)
    (healthy : list string) :
  lb_wf (lb w) ->
  get_healthy_gateways (lb (fst (update_health_status env w))) = Ok healthy ->
  healthy <> [] ->
  exists (sel : string) (c : Z),
    first_least (request_counts (lb w)) healthy sel
    /\ request_counts (lb w) !! sel = Some c
    /\ proxy_all env request path w
       = ({| lb := set_request_counts (<[sel := c + 1]> (request_counts (lb w)))
                     (lb (fst (update_health_status env w)));
             upstream_calls :=
               upstream_calls w ++ [forwarded_call request sel ("/" ++ path)%string];
             probe_calls := probe_calls (fst (update_health_status env w)) |},
          match send env (forwarded_call request sel ("/" ++ path)%string) with
          | Ok response =>
              Ok {| sr_content := content response;
                    sr_status_code := status_code response;
                    sr_headers := response_headers response |}
          | Raise _ => Raise (HTTPException 503 "Service temporarily unavailable")
          end).
Proof.
  intros Hwf Hh Hne.
  pose proof (update_health_status_ok env w Hwf) as Hok.
  pose proof (update_health_status_frame env w) as (Hcalls & Hcounts & Hgw & _ & _).
  destruct (update_health_status env w) as [w1 r] eqn:Hrefresh. simpl in *. subst r.
  destruct (select_min_and_count_run (lb w1) healthy Hne) as (sel & c & Hfirst & Hc & Hrun).
  { intros g Hg. destruct (healthy_of_elem _ _ _ _ Hh Hg) as [Hin _].
    rewrite Hgw in Hin. rewrite Hcounts.
    unfold lb_wf in Hwf. rewrite Forall_forall in Hwf.
    by destruct (Hwf g Hin) as (_ & ? & _). }
  rewrite Hcounts in Hfirst, Hc, Hrun.
  exists sel, c. split; [done|]. split; [done|].
  unfold proxy_all, bind at 1. rewrite Hrefresh.
  unfold try_except, bind, with_lb.
  rewrite (select_gateway_round_robin _ _ _ Hh Hne), Hrun.
  unfold proxy_request, try_except, bind, client_request, ret, raise.
  cbn [lb upstream_calls probe_calls]. rewrite Hcalls.
  by destruct (send env (forwarded_call request sel ("/" ++ path)%string)).
Qed.

(** X19.  From a balancer whose dictionaries hold every gateway,
    [proxy_all] ends in one of two ways only: it returns a response, or
    it raises HTTP 503 "Service temporarily unavailable"; and the
    dictionaries still hold every gateway afterwards, so no later request
    can fail on a missing key. *)
Theorem proxy_all_answers_or_503 :
  forall (env : Env) (request : Request) (path : string) (w : World),
    lb_wf (lb w) ->
    lb_wf (lb (fst (proxy_all env request path w)))
    /\ ((exists response, snd (proxy_all env request path w) = Ok response)
        \/ snd (proxy_all env request path w)
           = Raise (HTTPException 503 "Service temporarily unavailable")).
Proof.
  intros env request path w Hwf.
  pose proof (update_health_status_ok env w Hwf) as Hok.
  pose proof (refresh_keeps_wf env w Hwf) as Hwf1.
  remember (proxy_all env request path w) as res eqn:Hres.
  unfold proxy_all, bind at 1 in Hres.
  destruct (update_health_status env w) as [w1 r]. simpl in Hok, Hwf1. subst r.
  unfold try_except, bind, with_lb in Hres.
  pose proof (select_gateway_frame (random_draw env) (Some "round_robin"%string) (lb w1))
    as (Hg & Hh & Hl & _ & Hc).
  destruct (select_gateway (random_draw env) (Some "round_robin"%string) (lb w1))
    as [self2 [sel|e]]; simpl in Hg, Hh, Hl, Hc.
  - assert (Hwf2 : lb_wf self2).
    { apply (lb_wf_transfer (lb w1)); try done.
      - by rewrite Hh.
      - by rewrite Hl. }
    match type of Hres with
    | context [proxy_request env request sel ?p ?w2] =>
        pose proof (proxy_request_lb env request sel p w2) as Hlb;
        destruct (proxy_request env request sel p w2) as [w3 [resp|e]]
    end; simpl in Hlb; subst res; simpl; rewrite Hlb; (split; [done|]).
    + left. by eexists.
    + by right.
  - subst res. simpl. split; [|by right].
    apply (lb_wf_transfer (lb w1)); try done.
    + by rewrite Hh.
    + by rewrite Hl.
Qed.

Lemma proxy_all_answers_or_503_witness :
  lb_wf (lb (fst (proxy_all env_upstream_answers sample_request "v1/models" sample_world)))
  /\ ((exists response,
         snd (proxy_all env_upstream_answers sample_request "v1/models" sample_world)
         = Ok response)
      \/ snd (proxy_all env_upstream_answers sample_request "v1/models" sample_world)
         = Raise (HTTPException 503 "Service temporarily unavailable")).
Proof.
  apply (proxy_all_answers_or_503 env_upstream_answers sample_request "v1/models"
           sample_world sample_lb_wf).
Defined.


Lemma sample_refresh_healthy (env : Env) :
  probe env = (fun _ => Ok 200) -> time_now env = 1700000100 ->
  get_healthy_gateways (lb (fst (update_health_status env sample_world)))
  = Ok (gateways sample_lb).
Proof.
  destruct env as [t p s r]. simpl. intros -> ->. vm_compute. reflexivity.
Qed.


(** The gateway's 204 and its header reach the caller. *)
Example upstream_204_is_passed_through :
  snd (proxy_all env_upstream_answers sample_request "v1/models" sample_world)
  = Ok {| sr_content := EmptyString; sr_status_code := 204;
          sr_headers := [("x-served-by", "gateway")]%string |}.
Proof. vm_compute. reflexivity. Qed.

(** *** Counting *)

Lemma sum_values_insert (counts : gmap string Z) (k : string) (c c' : Z) :
  counts !! k = Some c ->
  sum_values (<[k := c']> counts) = sum_values counts - c + c'.
Proof.
  intros Hk. unfold sum_values.
  rewrite (map_fold_delete_L _ _ k c counts); [|intros; lia|done].
  rewrite <- (insert_delete_eq counts).
  rewrite map_fold_insert_L; [lia|intros; lia|apply lookup_delete_eq].
Qed.

Lemma get_stats_total (env : Env) (w : World) (report : StatsReport) :
  snd (get_stats env w) = Ok report ->
  total_requests report = sum_values (request_counts (lb w)).
Proof.
  pose proof (update_health_status_frame env w) as (_ & Hcounts & _).
  unfold get_stats, bind at 1.
  destruct (update_health_status env w) as [w1 [[]|e]]; [|done]. simpl in Hcounts.
  destruct w1 as [self calls probes]. unfold bind, with_lb, get, lift, ret.
  cbn [lb upstream_calls probe_calls] in *.
  destruct (map_result (gateway_stat self) (gateways self)) as [entries|e]; [|done].
  simpl. intros [= <-]. simpl. by rewrite Hcounts.
Qed.

(** X21.  Every request for which a healthy gateway exists is counted
    exactly once, whether or not the forwarded call succeeds: the total
    that [/stats] reports after the request is one more than the total it
    would have reported before. *)
Theorem routed_request_is_counted_once :
  forall (env env1 env2 : Env) (request : Request) (path : string) (w : World)
         (healthy : list string) (before after : StatsReport),
    lb_wf (lb w) ->
    get_healthy_gateways (lb (fst (update_health_status env w))) = Ok healthy ->
    healthy <> [] ->
    snd (get_stats env1 w) = Ok before ->
    snd (get_stats env2 (fst (proxy_all env request path w))) = Ok after ->
    total_requests after = total_requests before + 1.
Proof.
  intros env env1 env2 request path w healthy before after Hwf Hh Hne Hb Ha.
  apply get_stats_total in Hb, Ha. rewrite Hb, Ha.
  destruct (proxy_all_routed env request path w healthy Hwf Hh Hne)
    as (sel & c & _ & Hc & ->).
  cbn [fst lb request_counts set_request_counts].
  rewrite (sum_values_insert _ _ _ _ Hc). lia.
Qed.

Lemma routed_request_witness :
  exists before after,
    snd (get_stats env_upstream_refuses sample_world) = Ok before
    /\ snd (get_stats env_upstream_refuses
              (fst (proxy_all env_upstream_refuses sample_request "v1/models" sample_world)))
       = Ok after
    /\ total_requests after = total_requests before + 1.
Proof.
  eexists. eexists. split; [vm_compute; reflexivity|]. split; [vm_compute; reflexivity|].
  eapply (routed_request_is_counted_once env_upstream_refuses env_upstream_refuses
            env_upstream_refuses sample_request "v1/models" sample_world
            (gateways sample_lb) _ _ sample_lb_wf
            (sample_refresh_healthy env_upstream_refuses eq_refl eq_refl)).
  - discriminate.
  - vm_compute. reflexivity.
  - vm_compute. reflexivity.
Defined.

(** *** The health report *)

Lemma healthy_of_length (status : gmap string bool) (l healthy : list string) :
  healthy_of status l = Ok healthy -> (List.length healthy <= List.length l)%nat.
Proof.
  revert healthy. induction l as [|g l IH]; intros healthy; simpl.
  - by intros [= <-].
  - destruct (dict_get status g) as [h|e]; [|done].
    destruct (healthy_of status l) as [rest|e]; [|done].
    intros [= <-]. specialize (IH rest eq_refl). destruct h; simpl; lia.
Qed.

Lemma map_gateway_health_total (self : LoadBalancer) (l : list string) :
  (forall g, g ∈ l -> is_Some (health_status self !! g)
                      /\ is_Some (request_counts self !! g)) ->
  exists entries,
    map_result (gateway_health self) l = Ok entries
    /\ List.map gh_url entries = l.
Proof.
  induction l as [|g l IH]; intros Hdef; simpl; [by eexists|].
  destruct (Hdef g (list_elem_of_here _ _)) as [[h Hh] [c Hc]].
  destruct IH as (rest & Hrest & Hurls).
  { intros g' Hg'. apply Hdef. by apply list_elem_of_further. }
  unfold gateway_health at 1, dict_get. rewrite Hh, Hc, Hrest.
  eexists. split; [done|]. simpl. by rewrite Hurls.
Qed.

(** X22.  The report of [/health] agrees with what routing would do at
    that moment: from a balancer whose dictionaries hold every gateway the
    route always answers; it lists every gateway once, in registration
    order; the number of healthy gateways is at most their total; and the
    status is ["unhealthy"] exactly when that number is 0, which is
    exactly when [select_gateway] would raise 503 under every strategy. *)
Theorem health_report_agrees_with_routing :
  forall (env : Env) (w : World),
    lb_wf (lb w) ->
    exists report,
      health_check_route env w = (fst (update_health_status env w), Ok report)
      /\ List.map gh_url (hr_gateways report) = gateways (lb w)
      /\ hr_total_gateways report = List.length (gateways (lb w))
      /\ (hr_healthy_gateways report <= hr_total_gateways report)%nat
      /\ (hr_status report = "unhealthy"%string <-> hr_healthy_gateways report = O)
      /\ (hr_healthy_gateways report = O
          <-> forall (r : nat) (strategy : option string),
                snd (select_gateway r strategy (lb (fst (update_health_status env w))))
                = Raise (HTTPException 503 "No healthy gateways available")).
Proof.
  intros env w Hwf.
  pose proof (update_health_status_ok env w Hwf) as Hok.
  pose proof (refresh_keeps_wf env w Hwf) as Hwf1.
  pose proof (update_health_status_frame env w) as (_ & _ & Hgw & _ & _).
  unfold health_check_route, bind at 1.
  destruct (update_health_status env w) as [w1 r]. simpl in Hok, Hwf1, Hgw. subst r.
  cbn [fst]. destruct w1 as [self calls probes]. cbn [lb] in *.
  unfold bind, with_lb, get, lift, ret. cbn [lb upstream_calls probe_calls].
  assert (Hdef : forall g, g ∈ gateways self ->
            is_Some (health_status self !! g) /\ is_Some (request_counts self !! g)).
  { intros g Hg. unfold lb_wf in Hwf1. rewrite Forall_forall in Hwf1.
    by destruct (Hwf1 g Hg) as (? & ? & _). }
  destruct (healthy_of_total (health_status self) (gateways self)) as [healthy Hh].
  { intros g Hg. by apply Hdef. }
  destruct (map_gateway_health_total self (gateways self) Hdef) as (entries & He & Hurls).
  change (get_healthy_gateways self) with (healthy_of (health_status self) (gateways self)).
  rewrite Hh, He. eexists. split; [done|].
  cbn [hr_gateways hr_total_gateways hr_healthy_gateways hr_status lb].
  split; [by rewrite Hurls, Hgw|]. split; [by rewrite Hgw|].
  split; [by apply (healthy_of_length _ _ _ Hh)|]. split.
  - destruct healthy; simpl; split; done.
  - split.
    + intros Hzero r strategy. destruct healthy; [|done].
      by rewrite (select_gateway_none r strategy self Hh).
    + intros Hall. destruct (decide (healthy = [])) as [->|Hne]; [done|].
      specialize (Hall O (Some "random"%string)).
      rewrite (select_gateway_run O _ self healthy Hh Hne) in Hall. simpl in Hall.
      destruct (random_choice_elem O healthy Hne) as (g & Hg & _).
      rewrite Hg in Hall. done.
Qed.

Lemma health_report_witness :
  exists report,
    health_check_route env_all_down sample_world
    = (fst (update_health_status env_all_down sample_world), Ok report)
    /\ List.map gh_url (hr_gateways report) = gateways (lb sample_world)
    /\ hr_total_gateways report = List.length (gateways (lb sample_world))
    /\ (hr_healthy_gateways report <= hr_total_gateways report)%nat
    /\ (hr_status report = "unhealthy"%string <-> hr_healthy_gateways report = O)
    /\ (hr_healthy_gateways report = O
        <-> forall (r : nat) (strategy : option string),
              snd (select_gateway r strategy
                     (lb (fst (update_health_status env_all_down sample_world))))
              = Raise (HTTPException 503 "No healthy gateways available")).
Proof.
  apply (health_report_agrees_with_routing env_all_down sample_world sample_lb_wf).
Defined.

(** With every probe failing the report says ["unhealthy"], 0 of 3. *)
Example health_report_all_down :
  (fun report => (hr_status report, hr_healthy_gateways report, hr_total_gateways report))
    <$> match snd (health_check_route env_all_down sample_world) with
        | Ok report => Some report
        | Raise _ => None
        end
  = Some ("unhealthy"%string, O, 3%nat).
Proof. vm_compute. reflexivity. Qed.

(** *** Fairness *)

Lemma first_least_is_least (counts : gmap string Z) (l : list string) (sel : string) :
  first_least counts l sel ->
  exists c, counts !! sel = Some c
            /\ forall h ch, h ∈ l -> counts !! h = Some ch -> c <= ch.
Proof.
  intros (pre & post & c & -> & Hc & Hpre & Hpost). exists c. split; [done|].
  intros h ch Hin Hch. apply elem_of_app in Hin as [Hin|Hin].
  - destruct (Hpre h Hin) as (cg & Hcg & ?). rewrite Hch in Hcg. injection Hcg as <-. lia.
  - apply elem_of_cons in Hin as [->|Hin].
    + rewrite Hc in Hch. injection Hch as <-. lia.
    + destruct (Hpost h Hin) as (cg & Hcg & ?). rewrite Hch in Hcg.
      injection Hcg as <-. lia.
Qed.

(** X23.  Selection keeps the load even: if the request counts of the
    healthy gateways differ by at most one, they still do after a
    selection under any strategy other than ["random"], and the set of
    healthy gateways is as before.  Starting from equal counts, any run of
    such selections therefore spreads the requests evenly. *)
Theorem selection_keeps_counts_balanced :
  forall (r : nat) (strategy : option string) (self : LoadBalancer)
         (healthy : list string),
    strategy <> Some "random"%string ->
    lb_wf self ->
    get_healthy_gateways self = Ok healthy ->
    healthy <> [] ->
    balanced (request_counts self) healthy ->
    balanced (request_counts (fst (select_gateway r strategy self))) healthy
    /\ get_healthy_gateways (fst (select_gateway r strategy self)) = Ok healthy.
Proof.
  intros r strategy self healthy Hnot Hwf Hh Hne Hbal.
  rewrite (select_gateway_run r strategy self healthy Hh Hne).
  assert (String.eqb (default "round_robin"%string strategy) "random" = false) as ->.
  { apply String.eqb_neq. destruct strategy as [s|]; simpl; congruence. }
  destruct (select_min_and_count_run self healthy Hne (healthy_counts_defined _ _ Hwf Hh))
    as (sel & c & Hfirst & Hc & ->).
  cbn [fst]. split; [|done].
  destruct (first_least_is_least _ _ _ Hfirst) as (c' & Hc' & Hleast).
  rewrite Hc in Hc'. injection Hc' as <-.
  assert (Hsel : sel ∈ healthy).
  { destruct Hfirst as (pre & post & _ & -> & _).
    apply elem_of_app. right. apply list_elem_of_here. }
  intros g h cg ch Hg Hhh. cbn [request_counts set_request_counts].
  destruct (decide (g = sel)) as [->|Hgs]; destruct (decide (h = sel)) as [->|Hhs].
  - rewrite lookup_insert_eq. intros [= <-] [= <-]. lia.
  - rewrite lookup_insert_eq, lookup_insert_ne by done. intros [= <-] Hch.
    pose proof (Hleast h ch Hhh Hch). lia.
  - rewrite lookup_insert_eq, lookup_insert_ne by done. intros Hcg [= <-].
    pose proof (Hbal g sel cg c Hg Hsel Hcg Hc). lia.
  - rewrite !lookup_insert_ne by done. intros Hcg Hch.
    by apply (Hbal g h cg ch).
Qed.

Lemma init_wf : lb_wf LoadBalancer_init.
Proof. repeat constructor; vm_compute; eauto. Qed.

Lemma init_balanced : balanced (request_counts LoadBalancer_init) (gateways LoadBalancer_init).
Proof.
  intros g h cg ch Hg Hh Hcg Hch.
  assert (Hzero : forall x c, x ∈ gateways LoadBalancer_init ->
                              request_counts LoadBalancer_init !! x = Some c -> c = 0).
  { intros x c Hx. simpl in Hx.
    repeat (apply elem_of_cons in Hx as [->|Hx]; [vm_compute; congruence|]).
    by apply not_elem_of_nil in Hx. }
  rewrite (Hzero g cg Hg Hcg), (Hzero h ch Hh Hch). lia.
Qed.

Lemma selection_balanced_witness :
  balanced (request_counts (fst (select_gateway O None LoadBalancer_init)))
           (gateways LoadBalancer_init)
  /\ get_healthy_gateways (fst (select_gateway O None LoadBalancer_init))
     = Ok (gateways LoadBalancer_init).
Proof.
  apply (selection_keeps_counts_balanced O None LoadBalancer_init
           (gateways LoadBalancer_init) ltac:(discriminate) init_wf).
  - vm_compute. reflexivity.
  - discriminate.
  - exact init_balanced.
Defined.

End BalancerMore.
